(** * Yield calculator and quote fetcher of [server/src/helpers.ts]

    The TypeScript [number] type is IEEE 754 binary64, which is what the
    primitive [float] of the Standard Library is: [+], [-], [*] and [/] below
    are the very operations the source performs, with their rounding, their
    infinities and their NaN.  The only arithmetic the library lacks is the
    exponentiation operator; its exactly specified cases are written out
    and the remaining, approximated, case is a parameter of the model. *)

From Stdlib Require Import Reals Lra QArith Qreals.
From Stdlib Require Import ZArith Floats Bool Ascii String List Lia.
Import ListNotations.

#[local] Set Warnings "-inexact-float,-register-all".
#[local] Open Scope float_scope.

(** ** Numbers *)

Module Number.

(** The mathematical value of a finite float is [m * 2 ^ e]; it is an
    integer when the binary point leaves no fractional bits. *)
Definition is_integral (x : float) : bool :=
  match Prim2SF x with
  | S754_zero _ => true
  | S754_finite _ m e =>
      if (0 <=? e)%Z then true else (Z.pos m mod 2 ^ (- e) =? 0)%Z
  | _ => false
  end.

Definition is_odd_integral (x : float) : bool :=
  match Prim2SF x with
  | S754_finite _ m e =>
      if (0 <=? e)%Z then (e =? 0)%Z && Z.odd (Z.pos m)
      else (Z.pos m mod 2 ^ (- e) =? 0)%Z && Z.odd (Z.pos m / 2 ^ (- e))
  | _ => false
  end.

Section Exponentiate.

(** What the engine returns where the language only asks for an
    approximation of the real power: a finite non-zero base other than
    1, a finite non-zero exponent, and not a negative base with a
    fractional exponent. *)
Variable pow_approx : float -> float -> float.

(** [base ** exponent]: the case list of the language's
    Number::exponentiate, in its order.  Its last case asks for a number
    that represents the real power; of the base 1 that power is 1, a
    binary64 number, and it is the number the operator returns
    ([1 ** 0.5], [1 ** 12.166666666666666] and [1 ** -3] are all [1]),
    so that case is written out before the engine is asked. *)
Definition exponentiate (base exponent : float) : float :=
  if is_nan exponent then nan
  else if exponent =? 0 then 1
  else if is_nan base then nan
  else if base =? infinity then
    if 0 <? exponent then infinity else 0
  else if base =? neg_infinity then
    if 0 <? exponent
    then (if is_odd_integral exponent then neg_infinity else infinity)
    else (if is_odd_integral exponent then neg_zero else 0)
  else if base =? 0 then
    if get_sign base then
      if 0 <? exponent
      then (if is_odd_integral exponent then neg_zero else 0)
      else (if is_odd_integral exponent then neg_infinity else infinity)
    else
      if 0 <? exponent then 0 else infinity
  else if exponent =? infinity then
    if 1 <? abs base then infinity
    else if abs base =? 1 then nan
    else 0
  else if exponent =? neg_infinity then
    if 1 <? abs base then 0
    else if abs base =? 1 then nan
    else infinity
  else if (base <? 0) && negb (is_integral exponent) then nan
  else if base =? 1 then 1
  else pow_approx base exponent.

End Exponentiate.

(** *** An engine for the approximated case

    Used to run the model on concrete inputs: [x ^ y] as
    [exp (y * ln |x|)], both by argument reduction and a truncated
    series, with the sign of an odd power of a negative base. *)

Definition LN2 : float := 0.6931471805599453.

Definition float_of_Z (z : Z) : float :=
  SF2Prim (binary_normalize prec emax z 0%Z false).

Definition float_of_nat (n : nat) : float := float_of_Z (Z.of_nat n).

Definition floor_Z (x : float) : Z :=
  match Prim2SF x with
  | S754_finite s m e =>
      let z := cond_Zopp s (Z.pos m) in
      if (0 <=? e)%Z then (z * 2 ^ e)%Z else (z / 2 ^ (- e))%Z
  | _ => 0%Z
  end.

(** [1 + t2/3 + t2^2/5 + ...], [k] terms, innermost first. *)
Fixpoint atanh_series (t2 : float) (k : nat) (acc : float) : float :=
  match k with
  | O => acc
  | S k' => atanh_series t2 k' (1 / float_of_nat (2 * k' + 1) + t2 * acc)
  end.

(** [1 + r/1 * (1 + r/2 * (1 + ...))], [k] factors, innermost first. *)
Fixpoint exp_series (r : float) (k : nat) (acc : float) : float :=
  match k with
  | O => acc
  | S k' => exp_series r k' (1 + r / float_of_nat (S k') * acc)
  end.

Definition ln_positive (a : float) : float :=
  let '(m, e) := Z.frexp a in
  let t := (m - 1) / (m + 1) in
  float_of_Z e * LN2 + 2 * t * atanh_series (t * t) 24 0.

Definition exp_float (z : float) : float :=
  let k := floor_Z (z / LN2 + 0.5) in
  let r := z - float_of_Z k * LN2 in
  Z.ldexp (exp_series r 24 1) k.

Definition pow_engine (x y : float) : float :=
  if x =? 1 then 1
  else
    let p := exp_float (y * ln_positive (abs x)) in
    if (x <? 0) && is_odd_integral y then - p else p.

(** *** Equality of numbers

    [a === b]: NaN equals nothing, not even itself, and the two zeros
    are equal. *)
Definition strict_equals (a b : float) : bool := a =? b.

(** SameValueZero: as [===], with NaN the same as itself. *)
Definition same_value_zero (a b : float) : bool :=
  (a =? b) || (is_nan a && is_nan b).

(** Two numbers that differ at most in the sign of a zero. *)
Definition alike (x y : spec_float) : Prop :=
  x = y \/ exists s s', x = S754_zero s /\ y = S754_zero s'.

End Number.

(** ** Binary64 numbers as the real numbers they are *)

Module Exact.

(** The rational number that a finite binary64 number is; 0 stands in
    for the infinities and NaN. *)
Definition B2Q (x : float) : Q :=
  match Prim2SF x with
  | S754_finite s m e =>
      let z := cond_Zopp s (Z.pos m) in
      if (0 <=? e)%Z then inject_Z (z * 2 ^ e)
      else Qmake z (Z.to_pos (2 ^ (- e)))
  | _ => 0%Q
  end.

Definition B2R (x : float) : R := Q2R (B2Q x).

(** [x] is a number, and within the relative tolerance [tol] of the
    real number [r]. *)
Definition within_rel (tol : R) (x : float) (r : R) : Prop :=
  is_finite x = true /\ (Rabs (B2R x - r) <= tol * Rabs r)%R.

(** What the language asks of the engine in the last case of [**]: a
    number that approximates the real power of the operands, here to
    the relative tolerance [tol] at the operands [(x, y)]. *)
Definition approximates (tol : R) (pow_approx : float -> float -> float)
  (x y : float) : Prop :=
  within_rel tol (pow_approx x y) (Rpower (B2R x) (B2R y)).

(** The binary64 number [m * 2 ^ -52]: those between 1 and 2 are the
    ones with [2 ^ 52 <= m < 2 ^ 53]. *)
Definition binade_one (m : Z) : float :=
  SF2Prim (S754_finite false (Z.to_pos m) (-52)).

(** [y] is the number [m * 2 ^ e] for a mantissa [m] from [mlo] to
    [mhi]. *)
Definition between (e : Z) (mlo mhi : positive) (y : float) : bool :=
  is_finite y
  && match Prim2SF y with
     | S754_finite false m e' =>
         (e' =? e)%Z && (mlo <=? m)%positive && (m <=? mhi)%positive
     | _ => false
     end.

(** [f] maps each of the [count] numbers from [first * 2 ^ -52] upwards
    to such a number. *)
Fixpoint all_between (f : float -> float) (e : Z) (mlo mhi : positive)
  (first : Z) (count : nat) : bool :=
  match count with
  | O => true
  | S count' =>
      between e mlo mhi (f (binade_one first))
      && all_between f e mlo mhi (first + 1) count'
  end.

End Exact.

(** ** Language values, failures and the built-ins the source calls *)

Module Js.

(** What a rejected promise or a thrown exception carries. *)
Inductive exn : Type :=
| TypeError
| AxiosError (code : string).

Definition error_name (e : exn) : string :=
  match e with
  | TypeError => "TypeError"
  | AxiosError _ => "AxiosError"
  end.

(** The outcome of a call, and of an awaited promise: a value, or a
    failure that skips the rest of the body. *)
Inductive completion (A : Type) : Type :=
| Normal (a : A)
| Throw (e : exn).
Arguments Normal {A} a.
Arguments Throw {A} e.

Definition bind {A B : Type} (c : completion A) (k : A -> completion B)
  : completion B :=
  match c with
  | Normal a => k a
  | Throw e => Throw e
  end.

Declare Scope js_scope.
Delimit Scope js_scope with js.
Notation "x <- c ;; k" := (bind c (fun x => k))
  (at level 61, c at next level, right associativity) : js_scope.

(** A parsed JSON body ([res: any]), and [undefined] for what it lacks.
    An object lists its own properties, one entry per key. *)
Inductive value : Type :=
| Undefined
| Null
| Bool (b : bool)
| Num (n : float)
| Str (s : string)
| Arr (items : list value)
| Obj (fields : list (string * value)).

Record response : Type := { data : value }.

Fixpoint lookup (key : string) (fields : list (string * value)) : value :=
  match fields with
  | [] => Undefined
  | (k, v) :: rest => if String.eqb k key then v else lookup key rest
  end.

Definition has_key (key : string) (fields : list (string * value)) : bool :=
  existsb (fun kv => String.eqb (fst kv) key) fields.

(** [v.key], for the property names the source reads ([asset],
    [borrow_apy], [supply_apy], [host_zone], [redemption_rate]), none of
    which a prototype provides. *)
Definition get (v : value) (key : string) : completion value :=
  match v with
  | Undefined | Null => Throw TypeError
  | Obj fields => Normal (lookup key fields)
  | _ => Normal Undefined
  end.

(** [v[0]].  Of a string it is the first character, again a string. *)
Definition get_first (v : value) : completion value :=
  match v with
  | Undefined | Null => Throw TypeError
  | Arr items => Normal (hd Undefined items)
  | Obj fields => Normal (lookup "0" fields)
  | Str (String c _) => Normal (Str (String c EmptyString))
  | _ => Normal Undefined
  end.

(** [a === "literal"]. *)
Definition strict_equals_string (a : value) (literal : string) : bool :=
  match a with
  | Str s => String.eqb s literal
  | _ => false
  end.

Fixpoint filter_items (callback : value -> completion bool)
  (items : list value) : completion (list value) :=
  match items with
  | [] => Normal []
  | x :: rest =>
      (keep <- callback x ;;
       kept <- filter_items callback rest ;;
       Normal (if keep then x :: kept else kept))%js
  end.

(** [v.filter(callback)]: only an array has the method; on anything else
    the property read or the call of a non-function throws. *)
Definition array_filter (v : value) (callback : value -> completion bool)
  : completion (list value) :=
  match v with
  | Arr items => filter_items callback items
  | _ => Throw TypeError
  end.

(** [const [first] = items]. *)
Definition destructure_first (items : list value) : value :=
  hd Undefined items.

(** *** parseFloat *)

(** Strings are held as their UTF-8 bytes.  The blanks that are skipped
    are the language's WhiteSpace and LineTerminator characters: six of
    one byte, U+00A0 of two, and of three bytes U+1680, U+2000 to U+200A,
    U+2028, U+2029, U+202F, U+205F, U+3000 and U+FEFF. *)
Definition is_blank_1 (a : nat) : bool :=
  ((9 <=? a) && (a <=? 13) || (a =? 32))%nat.

Definition is_blank_2 (a b : nat) : bool :=
  ((a =? 194) && (b =? 160))%nat.

Definition is_blank_3 (a b c : nat) : bool :=
  ((a =? 225) && (b =? 154) && (c =? 128)
   || (a =? 226) && (b =? 128)
      && ((128 <=? c) && (c <=? 138) || (c =? 168) || (c =? 169)
          || (c =? 175))
   || (a =? 226) && (b =? 129) && (c =? 159)
   || (a =? 227) && (b =? 128) && (c =? 128)
   || (a =? 239) && (b =? 187) && (c =? 191))%nat.

Fixpoint trim_start (s : string) : string :=
  match s with
  | String a (String b (String c r3 as r2) as r1) =>
      if is_blank_1 (nat_of_ascii a) then trim_start r1
      else if is_blank_2 (nat_of_ascii a) (nat_of_ascii b) then trim_start r2
      else if is_blank_3 (nat_of_ascii a) (nat_of_ascii b) (nat_of_ascii c)
      then trim_start r3
      else s
  | String a (String b r2 as r1) =>
      if is_blank_1 (nat_of_ascii a) then trim_start r1
      else if is_blank_2 (nat_of_ascii a) (nat_of_ascii b) then trim_start r2
      else s
  | String a r1 =>
      if is_blank_1 (nat_of_ascii a) then trim_start r1 else s
  | EmptyString => s
  end.

Definition digit_of (c : ascii) : option Z :=
  let n := Z.of_nat (nat_of_ascii c) in
  if ((48 <=? n) && (n <=? 57))%Z then Some (n - 48)%Z else None.

(** Reads a run of digits onto [acc]: the number read so far, how many
    digits the run had, and what follows it. *)
Fixpoint read_digits (s : string) (acc count : Z) : Z * Z * string :=
  match s with
  | String c rest =>
      match digit_of c with
      | Some d => read_digits rest (10 * acc + d)%Z (count + 1)%Z
      | None => (acc, count, s)
      end
  | EmptyString => (acc, count, s)
  end.

Definition read_sign (s : string) : bool * string :=
  match s with
  | String "+" rest => (false, rest)
  | String "-" rest => (true, rest)
  | _ => (false, s)
  end.

(** The exponent part, when a complete one follows; otherwise none is
    taken and the literal ends before the [e]. *)
Definition read_exponent (s : string) : Z :=
  match s with
  | String c rest =>
      if (Ascii.eqb c "e" || Ascii.eqb c "E")%bool then
        let '(neg, after_sign) := read_sign rest in
        let '(v, n, _) := read_digits after_sign 0%Z 0%Z in
        if (n =? 0)%Z then 0%Z else if neg then (- v)%Z else v
      else 0%Z
  | EmptyString => 0%Z
  end.

Inductive decimal_literal : Type :=
| LitInfinity (neg : bool)
| LitDecimal (neg : bool) (mantissa exp10 : Z).

(** The longest prefix of [s] that is a StrDecimalLiteral, read as
    [mantissa * 10 ^ exp10]; [None] when no prefix is one. *)
Definition longest_decimal_prefix (s : string) : option decimal_literal :=
  let '(neg, r) := read_sign s in
  if prefix "Infinity" r then Some (LitInfinity neg)
  else
    let '(int_part, n_int, r1) := read_digits r 0%Z 0%Z in
    match r1 with
    | String "." r2 =>
        let '(m, n_frac, r3) := read_digits r2 int_part 0%Z in
        if ((n_int =? 0) && (n_frac =? 0))%Z then None
        else Some (LitDecimal neg m (read_exponent r3 - n_frac)%Z)
    | _ =>
        if (n_int =? 0)%Z then None
        else Some (LitDecimal neg int_part (read_exponent r1))
    end.

(** [mantissa * 10 ^ exp10] rounded to the nearest binary64, ties to
    even. *)
Definition round_decimal (neg : bool) (mantissa exp10 : Z) : spec_float :=
  match mantissa with
  | Zpos _ =>
      if (0 <=? exp10)%Z then
        binary_normalize prec emax
          (cond_Zopp neg (mantissa * 10 ^ exp10)%Z) 0%Z neg
      else
        let d := (10 ^ (- exp10))%Z in
        let s := (Zdigits2 d + 55)%Z in
        let '(q, r) := Z.div_eucl (Z.shiftl mantissa s) d in
        binary_round_aux prec emax neg q (- s)%Z (new_location d r)
  | _ => S754_zero neg
  end.

Definition parseFloat_string (s : string) : float :=
  match longest_decimal_prefix (trim_start s) with
  | None => nan
  | Some (LitInfinity neg) => if neg then neg_infinity else infinity
  | Some (LitDecimal neg m e) => SF2Prim (round_decimal neg m e)
  end.

(** The argument is first converted to a string.  That conversion throws
    for an object whose own [toString] property hides the inherited
    method (a JSON value is never callable), also inside an array, which
    joins the strings of its items. *)
Fixpoint to_string_throws (v : value) : bool :=
  match v with
  | Obj fields => has_key "toString" fields
  | Arr items => existsb to_string_throws items
  | _ => false
  end.

(** What the string of [v] parses to.  A number prints as the shortest
    decimal that reads back as itself ([-0] prints as [0]); an array
    prints its items separated by commas, so only the first can start
    the literal; [undefined], [null], [true], [false] and
    [[object Object]] start no literal. *)
Fixpoint parse_string_of (v : value) : float :=
  match v with
  | Str s => parseFloat_string s
  | Num n => if n =? 0 then 0 else n
  | Arr (x :: _) => parse_string_of x
  | _ => nan
  end.

Definition parseFloat (v : value) : completion float :=
  if to_string_throws v then Throw TypeError
  else Normal (parse_string_of v).

End Js.

(** ** helpers.ts *)

Module Helpers.
Import Number Js.
#[local] Open Scope js_scope.

(** *** The yield calculator (lines 24-47) *)

Section Calculator.

Variable pow_approx : float -> float -> float.

Definition calcArb (redeemRate price : float) : float :=
  redeemRate / price.

Definition calcAnnualizedArb (arb DAYS_TO_REDEEM : float) : float :=
  (exponentiate pow_approx arb (365 / DAYS_TO_REDEEM) - 1) * 100.

Definition calcNetDeltaNeutral
  (annualizedArb collateralRatio netBorrowRate : float) : float :=
  annualizedArb * collateralRatio - netBorrowRate.

End Calculator.

(** A synchronous function whose body is one arithmetic [return]: the
    call completes with the value of the expression. *)
Definition returns (result : float) : completion float := Normal result.

(** *** The quote fetcher (lines 32-39 and 49-86) *)

Definition UMEE_ASSETS_URL : string :=
  "https://testnet-client-bff-ocstrhuppq-uc.a.run.app/convexity/assets/all".

Definition STRIDE_HOST_ZONE_URL : string :=
  "https://stride-api.polkachu.com/Stride-Labs/stride/stakeibc/host_zone".

Section Fetcher.

(** The network at the time of the call: what [axios.get(url)] settles
    to, a response or a rejection. *)
Variable axios_get : string -> completion response.

(** [(x) => x.asset === symbol] *)
Definition asset_is (symbol : string) (x : value) : completion bool :=
  asset <- get x "asset" ;;
  Normal (strict_equals_string asset symbol).

Definition queryAtomUmeeHedge : completion float :=
  res <- axios_get UMEE_ASSETS_URL ;;
  found <- array_filter (data res) (asset_is "ATOM") ;;
  let atom := destructure_first found in
  borrow_apy <- get atom "borrow_apy" ;;
  borrowRate <- parseFloat borrow_apy ;;
  Normal borrowRate.

Definition queryUsdcSupplyRate : completion float :=
  res <- axios_get UMEE_ASSETS_URL ;;
  found <- array_filter (data res) (asset_is "USDC") ;;
  let usdc := destructure_first found in
  supply_apy <- get usdc "supply_apy" ;;
  supplyRate <- parseFloat supply_apy ;;
  Normal supplyRate.

Definition queryStAtomRedemptionRate : completion float :=
  res <- axios_get STRIDE_HOST_ZONE_URL ;;
  host_zone <- get (data res) "host_zone" ;;
  zone <- get_first host_zone ;;
  redemption_rate <- get zone "redemption_rate" ;;
  rate <- parseFloat redemption_rate ;;
  Normal rate.

Definition calcNetBorrowRate (borrowRate collateralRatio : float)
  : completion float :=
  USDC_SUPPLY_RATE <- queryUsdcSupplyRate ;;
  Normal (borrowRate * collateralRatio - USDC_SUPPLY_RATE).

End Fetcher.

(** The four steps chained as the end-to-end scenario names them: the
    arbitrage ratio of two quotes, its annualisation, the net borrow rate
    (which reads the supply rate) and the net yield. *)
Definition pipeline (pow_approx : float -> float -> float)
  (axios_get : string -> completion response)
  (redeemRate price DAYS_TO_REDEEM borrowRate collateralRatio : float)
  : completion float :=
  let arb := calcArb redeemRate price in
  let annualizedArb := calcAnnualizedArb pow_approx arb DAYS_TO_REDEEM in
  netBorrowRate <- calcNetBorrowRate axios_get borrowRate collateralRatio ;;
  Normal (calcNetDeltaNeutral annualizedArb collateralRatio netBorrowRate).

End Helpers.

(** ** Provider responses *)

Module Provider.
Import Js.
#[local] Open Scope string_scope.

(** An asset record: a JSON object. *)
Definition is_record (v : value) : bool :=
  match v with
  | Obj _ => true
  | _ => false
  end.

(** A record whose asset-symbol field is the string [symbol]. *)
Definition has_asset (symbol : string) (v : value) : bool :=
  match v with
  | Obj fields => strict_equals_string (lookup "asset" fields) symbol
  | _ => false
  end.

(** A rate string that is not a number: no prefix of it, leading blanks
    aside, is a decimal literal. *)
Definition not_numeric_b (s : string) : bool :=
  match longest_decimal_prefix (trim_start s) with
  | None => true
  | Some _ => false
  end.

Definition not_numeric (s : string) : Prop := not_numeric_b s = true.

End Provider.

(** ** Stub providers *)

Module Fixtures.
Import Js Helpers.
#[local] Open Scope string_scope.

(** A body of the assets endpoint with the two records helpers.ts looks
    for, carrying the given rates. *)
Definition assets_body (atom_borrow usdc_supply : string) : value :=
  Arr [ Obj [("asset", Str "ATOM"); ("borrow_apy", Str atom_borrow);
             ("supply_apy", Str "0.01")];
        Obj [("asset", Str "USDC"); ("borrow_apy", Str "0.05");
             ("supply_apy", Str usdc_supply)] ].

(** The same quotes with one more record in front. *)
Definition assets_body_longer (atom_borrow usdc_supply : string) : value :=
  match assets_body atom_borrow usdc_supply with
  | Arr items =>
      Arr (Obj [("asset", Str "OSMO"); ("borrow_apy", Str "0.2");
                ("supply_apy", Str "0.1")] :: items)
  | other => other
  end.

Definition host_zone_body (zones : list value) : value :=
  Obj [("host_zone", Arr zones)].

(** A network that serves [assets] and [zones] at the two endpoints and
    refuses every other address. *)
Definition stub_net (assets zones : value) (url : string)
  : completion response :=
  if String.eqb url UMEE_ASSETS_URL then Normal {| data := assets |}
  else if String.eqb url STRIDE_HOST_ZONE_URL then Normal {| data := zones |}
  else Throw (AxiosError "ERR_NETWORK").

End Fixtures.

(** ** Numeric conversion, for the division of two JSON values *)

Module JsNumeric.
Import Js.

(** The number of UTF-16 code units of a string held as UTF-8 bytes: one
    for each character, two for a character of four bytes. *)
Fixpoint utf16_length (s : string) : nat :=
  match s with
  | EmptyString => 0
  | String c rest =>
      let n := nat_of_ascii c in
      ((if (n <? 128) || (192 <=? n)
        then (if 240 <=? n then 2 else 1) else 0) + utf16_length rest)%nat
  end.

(** [v[1]].  Of a string it is the second code unit, again a string, of
    which the model keeps a place holder: the source reads only a
    property of it, and a string has none of the names it reads. *)
Definition get_second (v : value) : completion value :=
  match v with
  | Undefined | Null => Throw TypeError
  | Arr items => Normal (nth 1 items Undefined)
  | Obj fields => Normal (lookup "1" fields)
  | Str s =>
      Normal (if (2 <=? utf16_length s)%nat then Str "?" else Undefined)
  | _ => Normal Undefined
  end.

Definition radix_digit_of (radix : Z) (c : ascii) : option Z :=
  let n := Z.of_nat (nat_of_ascii c) in
  let d :=
    if ((48 <=? n) && (n <=? 57))%Z then (n - 48)%Z
    else if ((97 <=? n) && (n <=? 102))%Z then (n - 87)%Z
    else if ((65 <=? n) && (n <=? 70))%Z then (n - 55)%Z
    else radix in
  if (d <? radix)%Z then Some d else None.

Fixpoint read_radix_digits (radix : Z) (s : string) (acc count : Z)
  : Z * Z * string :=
  match s with
  | String c rest =>
      match radix_digit_of radix c with
      | Some d =>
          read_radix_digits radix rest (radix * acc + d)%Z (count + 1)%Z
      | None => (acc, count, s)
      end
  | EmptyString => (acc, count, s)
  end.

(** The radix and the digits of a literal that starts with [0x], [0o] or
    [0b], in either case of the letter. *)
Definition non_decimal_prefix (s : string) : option (Z * string) :=
  match s with
  | String "0" (String c digits) =>
      if (Ascii.eqb c "x" || Ascii.eqb c "X")%bool then Some (16%Z, digits)
      else if (Ascii.eqb c "o" || Ascii.eqb c "O")%bool then Some (8%Z, digits)
      else if (Ascii.eqb c "b" || Ascii.eqb c "B")%bool then Some (2%Z, digits)
      else None
  | _ => None
  end.

Fixpoint drop (n : nat) (s : string) : string :=
  match n, s with
  | S n', String _ rest => drop n' rest
  | _, _ => s
  end.

(** As [read_exponent], with what follows the exponent part. *)
Definition read_exponent_rest (s : string) : Z * string :=
  match s with
  | String c rest =>
      if (Ascii.eqb c "e" || Ascii.eqb c "E")%bool then
        let '(neg, after_sign) := read_sign rest in
        let '(v, n, after) := read_digits after_sign 0%Z 0%Z in
        if (n =? 0)%Z then (0%Z, s)
        else (if neg then (- v)%Z else v, after)
      else (0%Z, s)
  | EmptyString => (0%Z, s)
  end.

(** As [longest_decimal_prefix], with what follows the literal. *)
Definition decimal_prefix_rest (s : string)
  : option (decimal_literal * string) :=
  let '(neg, r) := read_sign s in
  if prefix "Infinity" r then Some (LitInfinity neg, drop 8 r)
  else
    let '(int_part, n_int, r1) := read_digits r 0%Z 0%Z in
    match r1 with
    | String "." r2 =>
        let '(m, n_frac, r3) := read_digits r2 int_part 0%Z in
        if ((n_int =? 0) && (n_frac =? 0))%Z then None
        else
          let '(e, r4) := read_exponent_rest r3 in
          Some (LitDecimal neg m (e - n_frac)%Z, r4)
    | _ =>
        if (n_int =? 0)%Z then None
        else
          let '(e, r4) := read_exponent_rest r1 in
          Some (LitDecimal neg int_part e, r4)
    end.

Definition literal_value (lit : decimal_literal) : float :=
  match lit with
  | LitInfinity neg => if neg then neg_infinity else infinity
  | LitDecimal neg m e => SF2Prim (round_decimal neg m e)
  end.

Definition is_blank (s : string) : bool :=
  match trim_start s with
  | EmptyString => true
  | _ => false
  end.

(** The number a string converts to: blanks around the whole of a
    decimal literal or of an unsigned literal in base 16, 8 or 2; [+0]
    for a blank string; NaN for anything else. *)
Definition string_to_number (s : string) : float :=
  let t := trim_start s in
  match t with
  | EmptyString => 0
  | _ =>
      match non_decimal_prefix t with
      | Some (radix, digits) =>
          let '(v, n, rest) := read_radix_digits radix digits 0%Z 0%Z in
          if (0 <? n)%Z && is_blank rest then Number.float_of_Z v else nan
      | None =>
          match decimal_prefix_rest t with
          | Some (lit, rest) => if is_blank rest then literal_value lit else nan
          | None => nan
          end
      end
  end.

(** What the string of an array item converts to.  An array prints its
    items separated by commas, [null] and [undefined] as nothing; a comma
    is part of no literal. *)
Fixpoint number_of_string_of (v : value) : float :=
  match v with
  | Undefined | Null => 0
  | Bool _ => nan
  | Num n => if n =? 0 then 0 else n
  | Str s => string_to_number s
  | Arr [] => 0
  | Arr [x] => number_of_string_of x
  | Arr _ => nan
  | Obj _ => nan
  end.

(** The conversion to a number that an arithmetic operator applies to
    its operands.  An object or an array goes through its string, with
    the failure of [to_string_throws]. *)
Definition to_number (v : value) : completion float :=
  if to_string_throws v then Throw TypeError
  else
    Normal
      match v with
      | Undefined => nan
      | Null => 0
      | Bool b => if b then 1 else 0
      | Num n => n
      | Str s => string_to_number s
      | Arr _ => number_of_string_of v
      | Obj _ => nan
      end.

(** [a / b]. *)
Definition divide (a b : value) : completion float :=
  (x <- to_number a ;;
   y <- to_number b ;;
   Normal (x / y))%js.

End JsNumeric.

(** ** helpers.ts at run time: the calculator on any values

    Compilation erases the parameter types: a call passes whatever
    values it has, and each arithmetic operator converts its operands
    with [to_number], the one step of these bodies that can throw. *)

Module Untyped.
Import Number Js JsNumeric.
#[local] Open Scope js_scope.

Section Calculator.

Variable pow_approx : float -> float -> float.

(** [redeemRate / price] *)
Definition calcArb (redeemRate price : value) : completion value :=
  quotient <- divide redeemRate price ;;
  Normal (Num quotient).

(** [(arb ** (365 / DAYS_TO_REDEEM) - 1) * 100]: the right operand of
    [**], a quotient, is evaluated before either operand of [**] is
    converted. *)
Definition calcAnnualizedArb (arb DAYS_TO_REDEEM : value)
  : completion value :=
  exponent <- divide (Num 365) DAYS_TO_REDEEM ;;
  base <- to_number arb ;;
  Normal (Num ((exponentiate pow_approx base exponent - 1) * 100)).

(** [annualizedArb * collateralRatio - netBorrowRate] *)
Definition calcNetDeltaNeutral
  (annualizedArb collateralRatio netBorrowRate : value)
  : completion value :=
  a <- to_number annualizedArb ;;
  c <- to_number collateralRatio ;;
  n <- to_number netBorrowRate ;;
  Normal (Num (a * c - n)).

End Calculator.

End Untyped.

(** ** helpers.ts, continued: the pool price and the joint read *)

Module Quotes.
Import Js JsNumeric Helpers.
#[local] Open Scope js_scope.

Definition OSMOSIS_POOL_URL : string :=
  "https://api-osmosis.imperator.co/pools/v2/803".

(** What [queryData] resolves to. *)
Record quotes : Type :=
  { price : float; redeemRate : float; borrowRate : float }.

(** One promise more in front of the promises of [Promise.all]: the
    values so far, or the rejection that came first and when.  Of two
    rejections at the same time the one of the earlier promise is
    kept. *)
Definition join_settled {A B : Type} (time : nat) (c : completion A)
  (rest : B + nat * exn) : A * B + nat * exn :=
  match c, rest with
  | Normal a, inl values => inl (a, values)
  | Normal _, inr rejection => inr rejection
  | Throw e, inl _ => inr (time, e)
  | Throw e, inr (time', e') =>
      if (time' <? time)%nat then inr (time', e') else inr (time, e)
  end.

(** [Promise.all] of three promises, each with the time it settles. *)
Definition promise_all3 {A B C : Type}
  (p1 : nat * completion A) (p2 : nat * completion B)
  (p3 : nat * completion C) : completion (A * B * C) :=
  match
    join_settled (fst p1) (snd p1)
      (join_settled (fst p2) (snd p2)
         (join_settled (fst p3) (snd p3) (inl tt)))
  with
  | inl (a, (b, (c, _))) => Normal (a, b, c)
  | inr (_, e) => Throw e
  end.

(** What the two asset fetchers do with the body of the response: the
    callback of [then], for the symbol and the rate field of each. *)
Definition quote_of (symbol field : string) (body : value)
  : completion float :=
  found <- array_filter body (asset_is symbol) ;;
  rate <- get (destructure_first found) field ;;
  parsed <- parseFloat rate ;;
  Normal parsed.

Section Reads.

Variable axios_get : string -> completion response.

(** When the request to an address settles. *)
Variable settle_time : string -> nat.

(** [amount], like the names the rate fetchers read, is a property no
    prototype provides. *)
Definition queryStAtomAtomPrice : completion float :=
  res <- axios_get OSMOSIS_POOL_URL ;;
  let data := data res in
  first <- get_first data ;;
  amount0 <- get first "amount" ;;
  second <- get_second data ;;
  amount1 <- get second "amount" ;;
  price <- divide amount0 amount1 ;;
  Normal price.

Definition queryData : completion quotes :=
  let promises :=
    ( (settle_time OSMOSIS_POOL_URL, queryStAtomAtomPrice),
      (settle_time STRIDE_HOST_ZONE_URL, queryStAtomRedemptionRate axios_get),
      (settle_time UMEE_ASSETS_URL, queryAtomUmeeHedge axios_get) ) in
  let '(p1, p2, p3) := promises in
  settled <- promise_all3 p1 p2 p3 ;;
  let '(price, redeemRate, borrowRate) := settled in
  Normal {| price := price; redeemRate := redeemRate;
            borrowRate := borrowRate |}.

End Reads.

(** A network that serves the three bodies at the three endpoints and
    refuses every other address. *)
Definition stub_net3 (pool assets zones : value) (url : string)
  : completion response :=
  if String.eqb url OSMOSIS_POOL_URL then Normal {| data := pool |}
  else Fixtures.stub_net assets zones url.

(** A network whose assets endpoint refuses first, whose zones arrive
    next and whose pool, an empty array, arrives last. *)
Definition failing_net (url : string) : completion response :=
  if String.eqb url UMEE_ASSETS_URL then Throw (AxiosError "ERR_BAD_RESPONSE")
  else stub_net3 (Arr []) (Arr [])
         (Fixtures.host_zone_body
            [Obj [("redemption_rate"%string, Str "1.02")]])
         url.

Definition failing_times (url : string) : nat :=
  if String.eqb url UMEE_ASSETS_URL then 1
  else if String.eqb url STRIDE_HOST_ZONE_URL then 2 else 3.

End Quotes.

(** * Properties *)

(** ** Facts about binary64 *)

Module FloatFacts.

Lemma SFcompare_refl_finite (s : bool) (m : positive) (e : Z) :
  SFcompare (S754_finite s m e) (S754_finite s m e) = Some Eq.
Proof.
  destruct s; simpl; rewrite Z.compare_refl, Pos.compare_cont_refl;
    reflexivity.
Qed.

Lemma is_nan_spec (x : float) :
  is_nan x = match Prim2SF x with S754_nan => true | _ => false end.
Proof.
  unfold is_nan. rewrite FloatAxioms.eqb_spec. unfold SFeqb.
  destruct (Prim2SF x) as [s | s | | s m e].
  - reflexivity.
  - destruct s; reflexivity.
  - reflexivity.
  - rewrite SFcompare_refl_finite. reflexivity.
Qed.

Lemma Prim2SF_zero : Prim2SF 0 = S754_zero false.
Proof. reflexivity. Qed.

Lemma Prim2SF_infinity : Prim2SF infinity = S754_infinity false.
Proof. reflexivity. Qed.

Lemma Prim2SF_neg_infinity : Prim2SF neg_infinity = S754_infinity true.
Proof. reflexivity. Qed.

(** Rewrites the tests on [x] into tests on its specification and splits
    on the kind of number it is. *)
Ltac by_kind x :=
  unfold is_finite, is_infinity in *;
  rewrite ?is_nan_spec, ?FloatAxioms.eqb_spec, ?FloatAxioms.ltb_spec,
    ?FloatAxioms.leb_spec, ?abs_spec,
    ?Prim2SF_zero, ?Prim2SF_infinity, ?Prim2SF_neg_infinity in *;
  destruct (Prim2SF x) as [[|] | [|] | | [|] ? ?];
  simpl in *; try discriminate; try reflexivity; auto.

Lemma finite_not_nan (x : float) : is_finite x = true -> is_nan x = false.
Proof. intros H. by_kind x. Qed.

Lemma finite_not_infinity (x : float) :
  is_finite x = true -> (x =? infinity) = false.
Proof. intros H. by_kind x. Qed.

Lemma finite_not_neg_infinity (x : float) :
  is_finite x = true -> (x =? neg_infinity) = false.
Proof. intros H. by_kind x. Qed.

Lemma negative_not_zero (x : float) : (x <? 0) = true -> (x =? 0) = false.
Proof. intros H. by_kind x. Qed.

Lemma fractional_not_zero (x : float) :
  Number.is_integral x = false -> (x =? 0) = false.
Proof.
  unfold Number.is_integral. intros H. by_kind x.
Qed.

(** A positive number over zero is [+Infinity]. *)
Lemma div_positive_zero (x : float) : (0 <? x) = true -> x / 0 = infinity.
Proof.
  intros H. apply Prim2SF_inj. rewrite div_spec, Prim2SF_zero.
  by_kind x.
Qed.

End FloatFacts.

(** ** The exponentiation operator *)

Module ExponentiateFacts.
Import Number FloatFacts.

Section Cases.

Variable pow_approx : float -> float -> float.

Lemma exponentiate_zero_exponent (base exponent : float) :
  is_nan exponent = false -> (exponent =? 0) = true ->
  exponentiate pow_approx base exponent = 1.
Proof.
  intros Hnan H0. unfold exponentiate. now rewrite Hnan, H0.
Qed.

(** Between finite non-zero numbers only the last two cases remain. *)
Lemma exponentiate_finite (base exponent : float) :
  is_finite base = true -> (base =? 0) = false ->
  is_finite exponent = true -> (exponent =? 0) = false ->
  exponentiate pow_approx base exponent =
    if (base <? 0) && negb (is_integral exponent) then nan
    else if base =? 1 then 1
    else pow_approx base exponent.
Proof.
  intros Hb Hb0 He He0. unfold exponentiate.
  rewrite (finite_not_nan _ He), He0, (finite_not_nan _ Hb),
    (finite_not_infinity _ Hb), (finite_not_neg_infinity _ Hb), Hb0,
    (finite_not_infinity _ He), (finite_not_neg_infinity _ He).
  reflexivity.
Qed.

Lemma exponentiate_negative_fractional (base exponent : float) :
  (base <? 0) = true -> is_finite base = true ->
  is_finite exponent = true -> is_integral exponent = false ->
  exponentiate pow_approx base exponent = nan.
Proof.
  intros Hneg Hb He Hfrac.
  rewrite exponentiate_finite;
    auto using negative_not_zero, fractional_not_zero.
  now rewrite Hneg, Hfrac.
Qed.

Lemma exponentiate_one (exponent : float) :
  is_finite exponent = true -> exponentiate pow_approx 1 exponent = 1.
Proof.
  intros He. destruct (exponent =? 0) eqn:He0.
  - apply exponentiate_zero_exponent; auto using finite_not_nan.
  - rewrite exponentiate_finite; auto.
Qed.

(** A positive base other than 1 leaves the power to the engine. *)
Lemma exponentiate_positive (base exponent : float) :
  (0 <? base) = true -> is_finite base = true -> (base =? 1) = false ->
  is_finite exponent = true -> (exponent =? 0) = false ->
  exponentiate pow_approx base exponent = pow_approx base exponent.
Proof.
  intros Hpos Hb Hone He He0.
  assert (Hz : (base =? 0) = false) by (clear - Hpos; by_kind base).
  assert (Hn : (base <? 0) = false) by (clear - Hpos; by_kind base).
  rewrite exponentiate_finite by assumption. now rewrite Hn, Hone.
Qed.

End Cases.

End ExponentiateFacts.

(** ** Exact values *)

Module ExactFacts.
Import Exact FloatFacts.

Lemma pow2_pred (d : Z) : (0 < d)%Z -> (2 ^ d = 2 * 2 ^ (d - 1))%Z.
Proof.
  intros H. replace d with (Z.succ (d - 1)) at 1 by lia.
  now rewrite Z.pow_succ_r by lia.
Qed.

Lemma digits2_pos_step (p : positive) (d : Z) :
  (0 < d)%Z -> (2 ^ (d - 1) <= Z.pos p < 2 ^ d)%Z ->
  (2 ^ (Z.succ d - 1) <= 2 * Z.pos p < 2 ^ Z.succ d)%Z
  /\ (2 ^ (Z.succ d - 1) <= 2 * Z.pos p + 1 < 2 ^ Z.succ d)%Z.
Proof.
  intros Hd IH. rewrite (pow2_pred d) in IH by lia.
  rewrite (pow2_pred (Z.succ d)) by lia.
  replace (Z.succ d - 1)%Z with d by lia.
  rewrite (pow2_pred d) by lia. lia.
Qed.

(** A mantissa of [d] binary digits lies between [2 ^ (d - 1)] and
    [2 ^ d]. *)
Lemma digits2_pos_bounds (m : positive) :
  (2 ^ (Z.pos (digits2_pos m) - 1) <= Z.pos m
   < 2 ^ Z.pos (digits2_pos m))%Z.
Proof.
  induction m as [p IH | p IH |]; cbn [digits2_pos].
  - rewrite Pos2Z.inj_xI, Pos2Z.inj_succ. now apply digits2_pos_step.
  - rewrite Pos2Z.inj_xO, Pos2Z.inj_succ. now apply digits2_pos_step.
  - simpl. lia.
Qed.

Lemma Q2R_inject_Z (k : Z) : Q2R (inject_Z k) = IZR k.
Proof. unfold Q2R, inject_Z. simpl. field. Qed.

Lemma Q2R_make (z d : Z) :
  (0 < d)%Z -> Q2R (Qmake z (Z.to_pos d)) = (IZR z / IZR d)%R.
Proof.
  intros Hd. unfold Q2R. simpl. now rewrite Z2Pos.id.
Qed.

Lemma Rdiv_gt (z d lo : R) : (0 < d -> lo < z / d -> lo * d < z)%R.
Proof.
  intros Hd H. replace z with (z / d * d)%R by (field; lra).
  now apply Rmult_lt_compat_r.
Qed.

Lemma Rdiv_lt (z d hi : R) : (0 < d -> z / d < hi -> z < hi * d)%R.
Proof.
  intros Hd H. replace z with (z / d * d)%R by (field; lra).
  now apply Rmult_lt_compat_r.
Qed.

(** A number strictly between 1 and 2 is [m * 2 ^ -52] for one [m]. *)
Lemma in_binade (p : float) :
  (1 < B2R p < 2)%R ->
  exists m, (2 ^ 52 <= m < 2 ^ 53)%Z /\ p = binade_one m
            /\ B2R p = (IZR m / IZR (2 ^ 52))%R.
Proof.
  intros [H1 H2]. pose proof (Prim2SF_valid p) as Hv.
  unfold B2R, B2Q in *.
  destruct (Prim2SF p) as [s | s | | s m e] eqn:Hk;
    try (unfold Q2R in H1; simpl in H1; lra).
  cbv zeta in *.
  unfold valid_binary, bounded, canonical_mantissa, fexp, SpecFloat.emin,
    prec, emax in Hv.
  apply andb_true_iff in Hv as [Hc _]. apply Z.eqb_eq in Hc.
  pose proof (digits2_pos_bounds m) as Hd.
  set (d := Z.pos (digits2_pos m)) in *.
  destruct (Z.leb_spec 0 e) as [He | He].
  - rewrite Q2R_inject_Z in H1, H2.
    apply lt_IZR in H1, H2. lia.
  - assert (HD : (0 < 2 ^ (- e))%Z) by (apply Z.pow_pos_nonneg; lia).
    rewrite Q2R_make in H1, H2 by assumption.
    assert (HDR : (0 < IZR (2 ^ (- e)))%R) by now apply IZR_lt.
    apply Rdiv_gt in H1; [| assumption].
    apply Rdiv_lt in H2; [| assumption].
    rewrite Rmult_1_l in H1. rewrite <- mult_IZR in H2.
    apply lt_IZR in H1, H2.
    destruct s; cbn [cond_Zopp] in H1, H2; [lia |].
    assert (Hm : (Z.pos m < 2 ^ 53)%Z).
    { apply Z.lt_le_trans with (2 ^ d)%Z; [lia |].
      apply Z.pow_le_mono_r; lia. }
    assert (He1 : (- e < 53)%Z).
    { apply (Z.pow_lt_mono_r_iff 2); lia. }
    assert (Hd53 : d = 53%Z) by lia.
    assert (H52 : (2 ^ 52 <= Z.pos m)%Z).
    { rewrite Hd53 in Hd. exact (proj1 Hd). }
    assert (He2 : (52 < 1 - e)%Z).
    { apply (Z.pow_lt_mono_r_iff 2); [lia | lia |].
      replace (1 - e)%Z with (Z.succ (- e)) by lia.
      rewrite Z.pow_succ_r by lia. lia. }
    assert (e = (-52)%Z) by lia. subst e.
    exists (Z.pos m). repeat split.
    + exact H52.
    + exact Hm.
    + unfold binade_one. simpl Z.to_pos.
      now rewrite <- Hk, SF2Prim_Prim2SF.
Qed.

Lemma between_spec (e : Z) (mlo mhi : positive) (y : float) :
  (e < 0)%Z -> between e mlo mhi y = true ->
  is_finite y = true
  /\ (IZR (Z.pos mlo) / IZR (2 ^ (- e)) <= B2R y
      <= IZR (Z.pos mhi) / IZR (2 ^ (- e)))%R.
Proof.
  unfold between, B2R, B2Q. intros He H.
  apply andb_true_iff in H as [Hfin H]. split; [assumption |].
  destruct (Prim2SF y) as [s | s | | [|] m e']; try discriminate.
  apply andb_true_iff in H as [H Hhi]. apply andb_true_iff in H as [He' Hlo].
  apply Z.eqb_eq in He' as ->.
  apply Pos.leb_le in Hlo, Hhi.
  assert (HD : (0 < 2 ^ (- e))%Z) by (apply Z.pow_pos_nonneg; lia).
  assert (HDR : (0 < / IZR (2 ^ (- e)))%R)
    by (apply Rinv_0_lt_compat; now apply IZR_lt).
  cbv zeta. cbn [cond_Zopp].
  destruct (Z.leb_spec 0 e) as [Hpos | _]; [lia |].
  rewrite Q2R_make by assumption.
  split; apply Rmult_le_compat_r; try lra; apply IZR_le; lia.
Qed.

Lemma all_between_member (f : float -> float) (e : Z) (mlo mhi : positive)
  (count : nat) :
  forall first m : Z,
    all_between f e mlo mhi first count = true ->
    (first <= m < first + Z.of_nat count)%Z ->
    between e mlo mhi (f (binade_one m)) = true.
Proof.
  induction count as [| count IH]; intros first m Hall Hm; [lia |].
  cbn [all_between] in Hall. apply andb_true_iff in Hall as [Hhere Hrest].
  destruct (Z.eq_dec first m) as [<- | Hne]; [assumption |].
  apply (IH (first + 1)%Z); [assumption | lia].
Qed.

(** What [all_between] checks holds of every number in its range. *)
Lemma all_between_spec (f : float -> float) (e : Z) (mlo mhi : positive)
  (first : Z) (count : nat) (p : float) :
  all_between f e mlo mhi first count = true ->
  (e < 0)%Z ->
  (2 ^ 52 < first)%Z -> (first + Z.of_nat count <= 2 ^ 53)%Z ->
  (IZR first / IZR (2 ^ 52) <= B2R p
   <= IZR (first + Z.of_nat count - 1) / IZR (2 ^ 52))%R ->
  is_finite (f p) = true
  /\ (IZR (Z.pos mlo) / IZR (2 ^ (- e)) <= B2R (f p)
      <= IZR (Z.pos mhi) / IZR (2 ^ (- e)))%R.
Proof.
  intros Hall He Hfirst Hlast [Hlo Hhi].
  assert (H252 : (0 < IZR (2 ^ 52))%R) by (apply IZR_lt; reflexivity).
  assert (Hbinade : (1 < B2R p < 2)%R).
  { split.
    - apply Rlt_le_trans with (IZR first / IZR (2 ^ 52))%R; [| assumption].
      apply Rmult_lt_reg_r with (IZR (2 ^ 52)); [assumption |].
      unfold Rdiv. rewrite Rmult_assoc, Rinv_l, Rmult_1_l, Rmult_1_r by lra.
      now apply IZR_lt.
    - apply Rle_lt_trans
        with (IZR (first + Z.of_nat count - 1) / IZR (2 ^ 52))%R;
        [assumption |].
      apply Rmult_lt_reg_r with (IZR (2 ^ 52)); [assumption |].
      unfold Rdiv. rewrite Rmult_assoc, Rinv_l, Rmult_1_r by lra.
      rewrite <- mult_IZR. apply IZR_lt.
      change (2 * 2 ^ 52)%Z with (2 ^ 53)%Z. lia. }
  destruct (in_binade p Hbinade) as [m [Hm [-> Hvalue]]].
  rewrite Hvalue in Hlo, Hhi.
  assert (Hrange : (first <= m <= first + Z.of_nat count - 1)%Z).
  { split; apply le_IZR;
      apply Rmult_le_reg_r with (/ IZR (2 ^ 52))%R;
      try (apply Rinv_0_lt_compat; assumption); assumption. }
  apply between_spec; [assumption |].
  apply (all_between_member f e mlo mhi count first); [assumption | lia].
Qed.

(** The real power with a rational exponent [n / d], between two
    numbers whose [d]-th powers enclose the [n]-th power of the base. *)
Lemma Rpower_bracket (b q lo hi : R) (n d : nat) :
  (0 < b)%R -> (q * INR d = INR n)%R -> (0 <= lo)%R -> (0 <= hi)%R ->
  (lo ^ d < b ^ n)%R -> (b ^ n < hi ^ d)%R ->
  (lo < Rpower b q < hi)%R.
Proof.
  intros Hb Hq Hlo Hhi Hlow Hhigh.
  assert (HP : (0 < Rpower b q)%R) by (unfold Rpower; apply exp_pos).
  assert (Hpow : (Rpower b q ^ d = b ^ n)%R).
  { rewrite <- (Rpower_pow d _ HP), Rpower_mult, Hq.
    now apply Rpower_pow. }
  split.
  - destruct (Rlt_le_dec lo (Rpower b q)) as [H | H]; [assumption |].
    assert (Rpower b q ^ d <= lo ^ d)%R by (apply pow_incr; lra). lra.
  - destruct (Rlt_le_dec (Rpower b q) hi) as [H | H]; [assumption |].
    assert (hi ^ d <= Rpower b q ^ d)%R by (apply pow_incr; lra). lra.
Qed.

(** The power moves little with its operands: for a base and an
    exponent just off [b] and [q]. *)
Lemma Rpower_near (b b' bhi q q' delta : R) :
  (1 < b)%R -> (b <= b' <= bhi)%R -> (0 <= delta)%R ->
  (0 <= q - delta)%R -> (q - delta <= q' <= q)%R ->
  (Rpower b q * (1 - delta * (b - 1)) <= Rpower b' q' <= Rpower bhi q)%R.
Proof.
  intros Hb Hb' Hdelta Hq Hq'. split.
  - apply Rle_trans with (Rpower b (q - delta)).
    + replace (q - delta)%R with (q + - delta)%R by lra.
      rewrite Rpower_plus.
      apply Rmult_le_compat_l; [unfold Rpower; left; apply exp_pos |].
      unfold Rpower at 1.
      apply Rle_trans with (1 + - delta * ln b)%R;
        [| apply exp_ineq1_le].
      assert (Hln : (ln b <= b - 1)%R).
      { pose proof (exp_ineq1_le (ln b)) as H.
        rewrite exp_ln in H by lra. lra. }
      assert (delta * ln b <= delta * (b - 1))%R
        by (now apply Rmult_le_compat_l).
      lra.
    + apply Rle_trans with (Rpower b q').
      * apply Rle_Rpower; lra.
      * apply Rle_Rpower_l; lra.
  - apply Rle_trans with (Rpower b' q).
    + apply Rle_Rpower; lra.
    + apply Rle_Rpower_l; lra.
Qed.

(** [1.02 ^ (365/30)] and [1.05 ^ (365/30)] to seventeen places. *)
Lemma power_of_1_02 :
  (1.2724344628404901 < Rpower (1.02 / 1.0) (365 / 30)
   < 1.2724344628404902)%R.
Proof.
  apply (Rpower_bracket _ _ _ _ 73 6); simpl INR; lra.
Qed.

Lemma power_of_1_05 :
  (1.8105192164554325 < Rpower 1.05 (365 / 30)
   < 1.8105192164554326)%R.
Proof.
  apply (Rpower_bracket _ _ _ _ 73 6); simpl INR; lra.
Qed.

(** The operands the scenarios hand to [**]: the binary64 numbers next
    to [1.02], [1.05] and [365/30]. *)
Lemma operand_1_02 :
  B2R (1.02 / 1.0) = (4593671619917906 / 4503599627370496)%R.
Proof.
  unfold B2R.
  replace (B2Q (1.02 / 1.0)) with (4593671619917906 # 4503599627370496)%Q
    by (vm_compute; reflexivity).
  unfold Q2R. cbn [Qnum Qden]. lra.
Qed.

Lemma operand_1_05 :
  B2R 1.05 = (4728779608739021 / 4503599627370496)%R.
Proof.
  unfold B2R.
  replace (B2Q 1.05) with (4728779608739021 # 4503599627370496)%Q
    by (vm_compute; reflexivity).
  unfold Q2R. cbn [Qnum Qden]. lra.
Qed.

Lemma operand_exponent :
  B2R (365 / 30) = (6849224433292629 / 562949953421312)%R.
Proof.
  unfold B2R.
  replace (B2Q (365 / 30)) with (6849224433292629 # 562949953421312)%Q
    by (vm_compute; reflexivity).
  unfold Q2R. cbn [Qnum Qden]. lra.
Qed.

(** The real powers of those operands. *)
Lemma operand_power_of_1_02 :
  (1.27243446284049 <= Rpower (B2R (1.02 / 1.0)) (B2R (365 / 30))
   <= 1.2724344628404906)%R.
Proof.
  rewrite operand_1_02, operand_exponent.
  pose proof power_of_1_02 as HP.
  assert (Hhi : (Rpower 1.02000000000000002 (365 / 30)
                 < 1.2724344628404906)%R).
  { refine (proj2 (Rpower_bracket _ _ 0 _ 73 6 _ _ _ _ _ _));
      simpl INR; lra. }
  pose proof (Rpower_near (1.02 / 1.0)
                (4593671619917906 / 4503599627370496)
                1.02000000000000002 (365 / 30)
                (6849224433292629 / 562949953421312) 6e-16) as H.
  lra.
Qed.

Lemma operand_power_of_1_05 :
  (1.81051921645543 <= Rpower (B2R 1.05) (B2R (365 / 30))
   <= 1.810519216455434)%R.
Proof.
  rewrite operand_1_05, operand_exponent.
  pose proof power_of_1_05 as HP.
  assert (Hhi : (Rpower 1.05000000000000005 (365 / 30)
                 < 1.810519216455434)%R).
  { refine (proj2 (Rpower_bracket _ _ 0 _ 73 6 _ _ _ _ _ _));
      simpl INR; lra. }
  pose proof (Rpower_near 1.05
                (4728779608739021 / 4503599627370496)
                1.05000000000000005 (365 / 30)
                (6849224433292629 / 562949953421312) 6e-16) as H.
  lra.
Qed.

(** From a relative tolerance to an enclosure, and back. *)
Lemma within_rel_bounds (tol : R) (x : float) (r : R) :
  (0 < r)%R -> within_rel tol x r ->
  is_finite x = true /\ (r - tol * r <= B2R x <= r + tol * r)%R.
Proof.
  intros Hr [Hfin H]. split; [assumption |].
  rewrite (Rabs_pos_eq r) in H by lra.
  revert H. unfold Rabs. destruct (Rcase_abs (B2R x - r)); lra.
Qed.

Lemma bounds_within_rel (tol : R) (x : float) (r : R) :
  (0 < r)%R -> is_finite x = true ->
  (r - tol * r <= B2R x <= r + tol * r)%R -> within_rel tol x r.
Proof.
  intros Hr Hfin H. split; [assumption |].
  rewrite (Rabs_pos_eq r) by lra.
  unfold Rabs. destruct (Rcase_abs (B2R x - r)); lra.
Qed.

End ExactFacts.

(** ** Equality up to the sign of a zero *)

Module SignedZeroFacts.
Import Number FloatFacts.

Lemma SFeqb_alike (x y : spec_float) : SFeqb x y = true -> alike x y.
Proof.
  unfold SFeqb, SFcompare.
  destruct x as [sx | sx | | sx mx ex], y as [sy | sy | | sy my ey];
    try discriminate;
    try (destruct sx; discriminate); try (destruct sy; discriminate).
  - intros _. right. now exists sx, sy.
  - destruct sx, sy; try discriminate; intros _; now left.
  - destruct sx, sy; try discriminate;
      (destruct (Z.compare_spec ex ey) as [-> | |]; try discriminate;
       destruct (Pos.compare_cont Eq mx my) eqn:Hm; try discriminate;
       apply Pos.compare_eq in Hm as ->; intros _; now left).
Qed.

Lemma eqb_alike (x y : float) :
  (x =? y) = true -> alike (Prim2SF x) (Prim2SF y).
Proof. rewrite FloatAxioms.eqb_spec. apply SFeqb_alike. Qed.

(** NaN is one value. *)
Lemma same_value_zero_alike (x y : float) :
  same_value_zero x y = true -> alike (Prim2SF x) (Prim2SF y).
Proof.
  unfold same_value_zero. intros H.
  apply orb_true_iff in H as [H | H]; [now apply eqb_alike |].
  apply andb_true_iff in H as [Hx Hy]. rewrite is_nan_spec in Hx, Hy.
  left. destruct (Prim2SF x), (Prim2SF y); try discriminate. reflexivity.
Qed.

(** Away from zero, numbers that are alike are the same value. *)
Lemma same_nonzero_same (x y : float) :
  same_value_zero x y = true -> (x =? 0) = false -> x = y.
Proof.
  intros Hsame Hnz. apply Prim2SF_inj.
  destruct (same_value_zero_alike _ _ Hsame) as [H | (s & s' & Hx & Hy)];
    [assumption |].
  rewrite FloatAxioms.eqb_spec, Hx in Hnz. discriminate.
Qed.

Lemma alike_mul (x x' y y' : spec_float) :
  alike x x' -> alike y y' ->
  alike (SF64mul x y) (SF64mul x' y').
Proof.
  intros [-> | (s & s' & -> & ->)] [-> | (t & t' & -> & ->)].
  - now left.
  - destruct x' as [sx | sx | | sx mx ex]; cbn;
      first [now left | right; eauto].
  - destruct y' as [sy | sy | | sy my ey]; cbn;
      first [now left | right; eauto].
  - right. cbn. eauto.
Qed.

Lemma alike_sub (x x' y y' : spec_float) :
  alike x x' -> alike y y' ->
  alike (SF64sub x y) (SF64sub x' y').
Proof.
  intros [-> | (s & s' & -> & ->)] [-> | (t & t' & -> & ->)].
  - now left.
  - destruct x' as [sx | sx | | sx mx ex]; cbn.
    + right. destruct sx, t, t'; cbn; eauto.
    + now left.
    + now left.
    + now left.
  - destruct y' as [sy | sy | | sy my ey]; cbn.
    + right. destruct s, s', sy; cbn; eauto.
    + now left.
    + now left.
    + now left.
  - right. destruct s, s', t, t'; cbn; eauto.
Qed.

(** A quotient takes the sign of a zero divisor, so the divisor is the
    same value on both sides. *)
Lemma alike_div (x x' y : spec_float) :
  alike x x' -> (forall s, y <> S754_zero s) ->
  alike (SF64div x y) (SF64div x' y).
Proof.
  intros [-> | (s & s' & -> & ->)] Hy.
  - now left.
  - destruct y as [sy | sy | | sy my ey]; cbn.
    + now destruct (Hy sy).
    + right. eauto.
    + now left.
    + right. eauto.
Qed.

Lemma alike_same_value_zero (x y : float) :
  alike (Prim2SF x) (Prim2SF y) -> same_value_zero x y = true.
Proof.
  unfold same_value_zero.
  intros [H | (s & s' & Hx & Hy)].
  - apply Prim2SF_inj in H as <-.
    destruct (is_nan x) eqn:Hnan; [apply orb_true_r |].
    unfold is_nan in Hnan. apply negb_false_iff in Hnan. now rewrite Hnan.
  - rewrite FloatAxioms.eqb_spec, Hx, Hy. reflexivity.
Qed.

End SignedZeroFacts.

(** ** The yield calculator *)

Module CalculatorSpec.
Import Number Js JsNumeric Helpers Fixtures.
Import FloatFacts ExponentiateFacts Exact ExactFacts.

(** What is left of [calcAnnualizedArb] once the engine has answered:
    every binary64 number that close to the power gives a result
    within the tolerance. *)
Lemma gain_of_1_05 (p : float) :
  within_rel 1e-12 p (Rpower (B2R 1.05) (B2R (365 / 30))) ->
  within_rel 1e-9 ((p - 1) * 100) ((Rpower 1.05 (365 / 30) - 1) * 100).
Proof.
  intros Hp.
  pose proof power_of_1_05 as HP. pose proof operand_power_of_1_05 as HPf.
  apply within_rel_bounds in Hp as [_ Hp]; [| lra].
  destruct (all_between_spec (fun p => (p - 1) * 100)
              (-46) 5703521934067417 5703521944622728
              8153853668567643 (Z.to_nat 16327) p) as [Hfin Hy].
  - vm_compute. reflexivity.
  - reflexivity.
  - reflexivity.
  - rewrite Z2Nat.id by discriminate. discriminate.
  - rewrite Z2Nat.id by discriminate.
    change (2 ^ 52)%Z with 4503599627370496%Z.
    change (8153853668567643 + 16327 - 1)%Z with 8153853668583969%Z.
    lra.
  - apply bounds_within_rel; [lra | assumption |].
    change (2 ^ (- (-46)))%Z with 70368744177664%Z in Hy. lra.
Qed.


(** The reference engine is that accurate at [(1.05, 365/30)]. *)
Lemma pow_engine_accurate_1_05 :
  approximates 1e-12 pow_engine 1.05 (365 / 30).
Proof.
  pose proof operand_power_of_1_05 as HPf. unfold approximates.
  set (P := Rpower _ _) in *. clearbody P.
  apply bounds_within_rel; [lra | reflexivity |].
  unfold B2R.
  let v := eval vm_compute in (B2Q (pow_engine 1.05 (365 / 30))) in
  replace (B2Q (pow_engine 1.05 (365 / 30))) with v
    by (vm_compute; reflexivity).
  unfold Q2R. cbn [Qnum Qden]. lra.
Qed.


(** At [(1.05, 30)] the operator reaches the engine's case. *)
Example scenario_power_is_approximated (pow_approx : float -> float -> float) :
  exponentiate pow_approx 1.05 (365 / 30) = pow_approx 1.05 (365 / 30).
Proof. reflexivity. Qed.




(** The exponent is [+0] for an unbounded period, and the engine is not
    consulted. *)
Example unbounded_period_has_no_gain
  (pow_approx : float -> float -> float) :
  calcAnnualizedArb pow_approx 1 infinity = 0.
Proof. reflexivity. Qed.

(** C3, as stated, fails: a zero price gives a quotient, not a failure. *)
Lemma calcArb_zero_price_returns :
  (0 <=? 0) = true
  /\ returns (calcArb 1.02 0) = Normal infinity
  /\ ~ (exists e, returns (calcArb 1.02 0) = Throw e
                  /\ error_name e = "InvalidArbRatio"%string).
Proof.
  repeat split; try reflexivity.
  intros [e [H _]]. discriminate H.
Qed.

(** C3 (amended): for every redemption rate and every price that is zero
    or negative, [calcArb] completes normally with the binary64 quotient
    [redemptionRate / spotPrice]; over a zero price a positive rate gives
    [+Infinity]. *)
Theorem calcArb_nonpositive_price (redemptionRate spotPrice : float) :
  (spotPrice <=? 0) = true ->
  returns (calcArb redemptionRate spotPrice)
    = Normal (redemptionRate / spotPrice)
  /\ (forall e, returns (calcArb redemptionRate spotPrice) <> Throw e)
  /\ ((0 <? redemptionRate) = true ->
      returns (calcArb redemptionRate 0) = Normal infinity).
Proof.
  intros _. repeat split.
  - discriminate.
  - intros Hpos. unfold returns, calcArb.
    now rewrite div_positive_zero.
Qed.

Lemma calcArb_nonpositive_price_witness :
  (-2 <=? 0) = true
  /\ returns (calcArb 1.02 (-2)) = Normal (-0.51)
  /\ returns (calcArb 1.02 0) = Normal infinity.
Proof.
  split; [reflexivity |].
  destruct (calcArb_nonpositive_price 1.02 (-2)) as [Heq [_ Hzero]];
    [reflexivity |].
  split; [exact Heq | apply Hzero; reflexivity].
Defined.

(** C4, as stated, fails: a zero period and a negative ratio under a
    fractional exponent both return a number-typed value. *)
Lemma calcAnnualizedArb_bad_inputs_return :
  (0 <=? 0) = true
  /\ (forall pow_approx,
        returns (calcAnnualizedArb pow_approx 1.05 0) = Normal infinity)
  /\ (-2 <? 0) = true
  /\ is_integral (365 / 30) = false
  /\ (forall pow_approx,
        returns (calcAnnualizedArb pow_approx (-2) 30) = Normal nan).
Proof. repeat split; reflexivity. Qed.

(** C4 (amended): [calcAnnualizedArb] never fails; for every ratio and
    every period, a zero or negative one included, it completes normally
    with [(arbRatio ** (365 / daysToRedeem) - 1) * 100], and for a finite
    negative ratio under a finite fractional exponent that value is NaN. *)
Theorem calcAnnualizedArb_never_fails
  (pow_approx : float -> float -> float) (arbRatio daysToRedeem : float) :
  returns (calcAnnualizedArb pow_approx arbRatio daysToRedeem)
    = Normal
        ((exponentiate pow_approx arbRatio (365 / daysToRedeem) - 1) * 100)
  /\ (forall e,
        returns (calcAnnualizedArb pow_approx arbRatio daysToRedeem)
          <> Throw e)
  /\ ((arbRatio <? 0) = true -> is_finite arbRatio = true ->
      is_finite (365 / daysToRedeem) = true ->
      is_integral (365 / daysToRedeem) = false ->
      returns (calcAnnualizedArb pow_approx arbRatio daysToRedeem)
        = Normal nan).
Proof.
  repeat split.
  - discriminate.
  - intros Hneg Hb He Hfrac. unfold returns, calcAnnualizedArb.
    rewrite exponentiate_negative_fractional by assumption.
    reflexivity.
Qed.

Lemma calcAnnualizedArb_never_fails_witness :
  (-2 <? 0) = true /\ is_finite (-2) = true
  /\ is_finite (365 / 30) = true /\ is_integral (365 / 30) = false
  /\ returns (calcAnnualizedArb pow_engine (-2) 30) = Normal nan.
Proof.
  do 4 (split; [reflexivity |]).
  apply (calcAnnualizedArb_never_fails pow_engine (-2) 30); reflexivity.
Defined.

(** C10: the three synchronous calculators are total on numbers: run on
    any values, where converting an operand is what could throw, a call
    whose arguments are numbers completes normally with the number the
    arithmetic gives, a zero price, a zero period and a negative ratio
    included. *)
Theorem calculators_total
  (pow_approx : float -> float -> float)
  (redeemRate price arb DAYS_TO_REDEEM : float)
  (annualizedArb collateralRatio netBorrowRate : float) :
  Untyped.calcArb (Num redeemRate) (Num price)
    = Normal (Num (calcArb redeemRate price))
  /\ Untyped.calcAnnualizedArb pow_approx (Num arb) (Num DAYS_TO_REDEEM)
     = Normal (Num (calcAnnualizedArb pow_approx arb DAYS_TO_REDEEM))
  /\ Untyped.calcNetDeltaNeutral (Num annualizedArb) (Num collateralRatio)
       (Num netBorrowRate)
     = Normal (Num (calcNetDeltaNeutral annualizedArb collateralRatio
                      netBorrowRate))
  /\ Untyped.calcArb (Num redeemRate) (Num 0) = Normal (Num (redeemRate / 0))
  /\ Untyped.calcArb (Num 0) (Num 0) = Normal (Num nan)
  /\ Untyped.calcAnnualizedArb pow_approx (Num 1.05) (Num 0)
     = Normal (Num infinity)
  /\ Untyped.calcAnnualizedArb pow_approx (Num (-2)) (Num 30)
     = Normal (Num nan).
Proof.
  repeat split; reflexivity.
Qed.

(** What does throw: an argument that is no number and whose conversion
    fails, an object with a [toString] property of its own. *)
Lemma calcArb_throws_on_unconvertible (redeemRate price : value) :
  to_string_throws redeemRate || to_string_throws price = true ->
  Untyped.calcArb redeemRate price = Throw TypeError.
Proof.
  unfold Untyped.calcArb, JsNumeric.divide, JsNumeric.to_number.
  destruct (to_string_throws redeemRate); [reflexivity |].
  simpl. now intros ->.
Qed.

Example calcArb_of_an_object :
  Untyped.calcArb (Obj [("toString"%string, Null)]) (Num 1)
  = Throw TypeError.
Proof. reflexivity. Qed.

End CalculatorSpec.

(** ** The quote fetcher *)

Module FetcherSpec.
Import Number Js Helpers Provider Fixtures.
#[local] Open Scope string_scope.

Section Filter.

Variable symbol : string.

(** On an array of records the callback cannot throw, and the method is
    the list filter by the asset symbol. *)
Lemma filter_items_records (items : list value) :
  forallb is_record items = true ->
  filter_items (asset_is symbol) items
    = Normal (filter (has_asset symbol) items).
Proof.
  induction items as [| x rest IH]; intros Hrec.
  - reflexivity.
  - simpl in Hrec. apply andb_true_iff in Hrec as [Hx Hrest].
    destruct x; try discriminate Hx.
    simpl. rewrite (IH Hrest). simpl.
    destruct (strict_equals_string (lookup "asset" fields) symbol);
      reflexivity.
Qed.

(** Without a matching item the method keeps nothing, unless the callback
    throws on a [null] item first. *)
Lemma filter_items_no_match (items : list value) :
  existsb (has_asset symbol) items = false ->
  filter_items (asset_is symbol) items = Normal []
  \/ filter_items (asset_is symbol) items = Throw TypeError.
Proof.
  induction items as [| x rest IH]; intros Hnone.
  - left. reflexivity.
  - simpl in Hnone. apply orb_false_iff in Hnone as [Hx Hrest].
    destruct x; simpl; try (right; reflexivity);
      try (destruct (IH Hrest) as [-> | ->]; [left | right]; reflexivity).
    simpl in Hx. rewrite Hx.
    destruct (IH Hrest) as [-> | ->]; [left | right]; reflexivity.
Qed.

End Filter.

Lemma hd_filter_find {A : Type} (p : A -> bool) (d x : A) (l : list A) :
  find p l = Some x -> hd d (filter p l) = x.
Proof.
  induction l as [| a l IH]; simpl; [discriminate |].
  destruct (p a); [intros [= ->]; reflexivity | exact IH].
Qed.

Lemma parseFloat_not_numeric (s : string) :
  not_numeric s -> parseFloat (Str s) = Normal nan.
Proof.
  unfold not_numeric, not_numeric_b. intros H.
  change (parseFloat (Str s)) with (Normal (parseFloat_string s)).
  unfold parseFloat_string.
  now destruct (longest_decimal_prefix (trim_start s)).
Qed.

Section Quotes.

Variable axios_get : string -> completion response.

Lemma query_no_match (symbol field : string) (items : list value) :
  existsb (has_asset symbol) items = false ->
  (found <- array_filter (Arr items) (asset_is symbol) ;;
   rate <- get (destructure_first found) field ;;
   parsed <- parseFloat rate ;;
   Normal parsed)%js = Throw TypeError.
Proof.
  intros Hnone. simpl.
  destruct (filter_items_no_match symbol items Hnone) as [-> | ->];
    reflexivity.
Qed.

Lemma query_not_numeric (symbol field s : string) (x : value)
  (items : list value) :
  forallb is_record items = true ->
  find (has_asset symbol) items = Some x ->
  get x field = Normal (Str s) ->
  not_numeric s ->
  (found <- array_filter (Arr items) (asset_is symbol) ;;
   rate <- get (destructure_first found) field ;;
   parsed <- parseFloat rate ;;
   Normal parsed)%js = Normal nan.
Proof.
  intros Hrec Hfind Hget Hbad. cbn [array_filter].
  rewrite (filter_items_records symbol items Hrec). cbn [bind].
  unfold destructure_first.
  rewrite (hd_filter_find _ Undefined x items Hfind), Hget. cbn [bind].
  now rewrite (parseFloat_not_numeric s Hbad).
Qed.

End Quotes.

(** The parser agrees with the literals of the binary64 type. *)
Example parseFloat_samples :
  map parseFloat_string
    ["0.03"; " 0.02"; "1.02"; "-0"; "1e21"; "5e-324"; ".5e1"; "12px";
     "Infinity"; "1e400"]
  = [0.03; 0.02; 1.02; neg_zero; 1e21; 5e-324; 5; 12; infinity; infinity]
  /\ map not_numeric_b ["n/a"; ""; "."; "-"; "e5"; "NaN"; "0.08"]
     = [true; true; true; true; true; true; false].
Proof. split; reflexivity. Qed.

(** C5, as stated, fails: with no ATOM record in the array the fetch
    rejects, but with the TypeError of reading a property of
    [undefined]; no QuoteUnavailable error is raised. *)
Lemma no_matching_record_is_type_error :
  existsb (has_asset "ATOM") [Obj [("asset", Str "OSMO"); ("borrow_apy", Str "0.2")]]
    = false
  /\ queryAtomUmeeHedge
       (stub_net (Arr [Obj [("asset", Str "OSMO"); ("borrow_apy", Str "0.2")]])
          (host_zone_body []))
     = Throw TypeError
  /\ error_name TypeError <> "QuoteUnavailable".
Proof. repeat split. discriminate. Qed.

(** C5 (amended): when the asset array holds no record with the target
    symbol, [queryAtomUmeeHedge] and [queryUsdcSupplyRate] fail, the
    promise rejecting with a TypeError, and resolve to no value.
    [queryStAtomRedemptionRate] looks for no symbol: it fails in that way
    on an empty [host_zone] and otherwise parses the rate of the first
    zone. *)
Theorem no_matching_record_rejects
  (axios_get : string -> completion response) :
  (forall items,
      axios_get UMEE_ASSETS_URL = Normal {| data := Arr items |} ->
      existsb (has_asset "ATOM") items = false ->
      queryAtomUmeeHedge axios_get = Throw TypeError)
  /\ (forall items,
        axios_get UMEE_ASSETS_URL = Normal {| data := Arr items |} ->
        existsb (has_asset "USDC") items = false ->
        queryUsdcSupplyRate axios_get = Throw TypeError)
  /\ (forall fields,
        axios_get STRIDE_HOST_ZONE_URL = Normal {| data := Obj fields |} ->
        lookup "host_zone" fields = Arr [] ->
        queryStAtomRedemptionRate axios_get = Throw TypeError)
  /\ (forall fields zone others rate,
        axios_get STRIDE_HOST_ZONE_URL = Normal {| data := Obj fields |} ->
        lookup "host_zone" fields = Arr (Obj zone :: others) ->
        lookup "redemption_rate" zone = Str rate ->
        queryStAtomRedemptionRate axios_get
          = Normal (parseFloat_string rate))
  /\ error_name TypeError = "TypeError".
Proof.
  repeat split.
  - intros items Hres Hnone. unfold queryAtomUmeeHedge.
    rewrite Hres. apply (query_no_match "ATOM" "borrow_apy" items Hnone).
  - intros items Hres Hnone. unfold queryUsdcSupplyRate.
    rewrite Hres. apply (query_no_match "USDC" "supply_apy" items Hnone).
  - intros fields Hres Hzone. unfold queryStAtomRedemptionRate.
    rewrite Hres. simpl. now rewrite Hzone.
  - intros fields zone others rate Hres Hzone Hrate.
    unfold queryStAtomRedemptionRate.
    rewrite Hres. simpl. rewrite Hzone. simpl. now rewrite Hrate.
Qed.

Lemma no_matching_record_rejects_witness :
  queryAtomUmeeHedge (stub_net (Arr []) (host_zone_body [])) = Throw TypeError
  /\ queryUsdcSupplyRate (stub_net (Arr []) (host_zone_body []))
     = Throw TypeError
  /\ queryStAtomRedemptionRate (stub_net (Arr []) (host_zone_body []))
     = Throw TypeError.
Proof.
  destruct (no_matching_record_rejects
              (stub_net (Arr []) (host_zone_body [])))
    as [Hatom [Husdc [Hzone _]]].
  split; [apply (Hatom []); reflexivity |].
  split; [apply (Husdc []); reflexivity |].
  apply (Hzone [("host_zone", Arr [])]); reflexivity.
Defined.

(** The first zone is read whatever chain it names. *)
Example first_zone_is_taken :
  queryStAtomRedemptionRate
    (stub_net (Arr [])
       (host_zone_body
          [Obj [("chain_id", Str "osmosis-1"); ("redemption_rate", Str "1.1")];
           Obj [("chain_id", Str "cosmoshub-4");
                ("redemption_rate", Str "1.2")]]))
  = Normal 1.1.
Proof. reflexivity. Qed.

(** C6, as stated, fails: a rate that is not a number parses to NaN and
    the fetch resolves to it. *)
Lemma malformed_rate_resolves_to_nan :
  find (has_asset "ATOM") [Obj [("asset", Str "ATOM"); ("borrow_apy", Str "n/a")]]
    = Some (Obj [("asset", Str "ATOM"); ("borrow_apy", Str "n/a")])
  /\ not_numeric "n/a"
  /\ queryAtomUmeeHedge
       (stub_net (Arr [Obj [("asset", Str "ATOM"); ("borrow_apy", Str "n/a")]])
          (host_zone_body []))
     = Normal nan
  /\ ~ (exists e,
          queryAtomUmeeHedge
            (stub_net
               (Arr [Obj [("asset", Str "ATOM"); ("borrow_apy", Str "n/a")]])
               (host_zone_body []))
          = Throw e /\ error_name e = "MalformedQuote").
Proof.
  repeat split. intros [e [H _]]. discriminate H.
Qed.

(** C6 (amended): when the array of records holds one with the target
    symbol and the rate field of the first such record is a string that
    is not a number, [queryAtomUmeeHedge] and [queryUsdcSupplyRate] do
    not fail: they resolve to NaN. *)
Theorem malformed_rate_is_nan
  (axios_get : string -> completion response) (items : list value)
  (x : value) (s : string) :
  axios_get UMEE_ASSETS_URL = Normal {| data := Arr items |} ->
  forallb is_record items = true ->
  not_numeric s ->
  (find (has_asset "ATOM") items = Some x ->
   get x "borrow_apy" = Normal (Str s) ->
   queryAtomUmeeHedge axios_get = Normal nan)
  /\ (find (has_asset "USDC") items = Some x ->
      get x "supply_apy" = Normal (Str s) ->
      queryUsdcSupplyRate axios_get = Normal nan).
Proof.
  intros Hres Hrec Hbad. split; intros Hfind Hget.
  - unfold queryAtomUmeeHedge. rewrite Hres.
    apply (query_not_numeric "ATOM" "borrow_apy" s x items); assumption.
  - unfold queryUsdcSupplyRate. rewrite Hres.
    apply (query_not_numeric "USDC" "supply_apy" s x items); assumption.
Qed.

Lemma malformed_rate_is_nan_witness :
  forallb is_record
    [Obj [("asset", Str "ATOM"); ("borrow_apy", Str "n/a")]] = true
  /\ not_numeric "n/a"
  /\ queryAtomUmeeHedge
       (stub_net (Arr [Obj [("asset", Str "ATOM"); ("borrow_apy", Str "n/a")]])
          (host_zone_body []))
     = Normal nan.
Proof.
  do 2 (split; [reflexivity |]).
  apply (malformed_rate_is_nan
           (stub_net
              (Arr [Obj [("asset", Str "ATOM"); ("borrow_apy", Str "n/a")]])
              (host_zone_body []))
           [Obj [("asset", Str "ATOM"); ("borrow_apy", Str "n/a")]]
           (Obj [("asset", Str "ATOM"); ("borrow_apy", Str "n/a")]) "n/a");
    reflexivity.
Defined.

(** A rate with a numeric prefix parses to that prefix. *)
Example numeric_prefix_is_taken :
  queryAtomUmeeHedge
    (stub_net (Arr [Obj [("asset", Str "ATOM"); ("borrow_apy", Str "0.08%")]])
       (host_zone_body []))
  = Normal 0.08.
Proof. reflexivity. Qed.

End FetcherSpec.

(** ** The net borrow rate and the whole pipeline *)

Module PipelineSpec.
Import Number Js Helpers Provider Fixtures CalculatorSpec.
Import Exact ExactFacts SignedZeroFacts.

(** C9: when the supply-rate read yields [supplyRate],
    [calcNetBorrowRate] returns
    [borrowRate * collateralRatio - supplyRate]; at [(0.10, 2.0)] with a
    supply rate of [0.03] that is [0.17]. *)
Theorem calcNetBorrowRate_formula
  (axios_get : string -> completion response)
  (borrowRate collateralRatio supplyRate : float) :
  queryUsdcSupplyRate axios_get = Normal supplyRate ->
  calcNetBorrowRate axios_get borrowRate collateralRatio
    = Normal (borrowRate * collateralRatio - supplyRate)
  /\ (borrowRate = 0.10 -> collateralRatio = 2.0 -> supplyRate = 0.03 ->
      calcNetBorrowRate axios_get borrowRate collateralRatio = Normal 0.17).
Proof.
  intros Hsupply. unfold calcNetBorrowRate. rewrite Hsupply. split.
  - reflexivity.
  - intros -> -> ->. reflexivity.
Qed.

Lemma calcNetBorrowRate_formula_witness :
  queryUsdcSupplyRate
    (stub_net (assets_body "0.08" "0.03") (host_zone_body []))
    = Normal 0.03
  /\ calcNetBorrowRate
       (stub_net (assets_body "0.08" "0.03") (host_zone_body [])) 0.10 2.0
     = Normal 0.17.
Proof.
  split; [reflexivity |].
  apply (calcNetBorrowRate_formula
           (stub_net (assets_body "0.08" "0.03") (host_zone_body []))
           0.10 2.0 0.03); reflexivity.
Defined.




(** The last three steps of the scenario, from the engine's answer on:
    every binary64 number that close to the power gives a yield within
    the tolerance. *)
Lemma yield_of_1_02 (p : float) :
  within_rel 1e-12 p (Rpower (B2R (1.02 / 1.0)) (B2R (365 / 30))) ->
  within_rel 1e-9
    (calcNetDeltaNeutral ((p - 1) * 100) 1.5 (0.08 * 1.5 - 0.02))
    ((Rpower (1.02 / 1.0) (365 / 30) - 1) * 100 * 1.5
     - (0.08 * 1.5 - 0.02)).
Proof.
  intros Hp.
  pose proof power_of_1_02 as HP. pose proof operand_power_of_1_02 as HPf.
  apply within_rel_bounds in Hp as [_ Hp]; [| lra].
  destruct (all_between_spec
              (fun p =>
                 calcNetDeltaNeutral ((p - 1) * 100) 1.5
                   (0.08 * 1.5 - 0.02))
              (-47) 5737187552328099 5737187562179722
              5730535372696077 (Z.to_nat 11466) p) as [Hfin Hy].
  - vm_compute. reflexivity.
  - reflexivity.
  - reflexivity.
  - rewrite Z2Nat.id by discriminate. discriminate.
  - rewrite Z2Nat.id by discriminate.
    change (2 ^ 52)%Z with 4503599627370496%Z.
    change (5730535372696077 + 11466 - 1)%Z with 5730535372707542%Z.
    lra.
  - apply bounds_within_rel; [lra | assumption |].
    change (2 ^ (- (-47)))%Z with 140737488355328%Z in Hy. lra.
Qed.

(** C1: with spot price 1.0, redemption rate 1.02, a 30-day period,
    borrow rate 0.08, collateral ratio 1.5 and a supply-rate read of
    0.02, and an engine whose power is within a relative [1e-12] of the
    real power of its operands, the four steps complete with a number
    within a relative [1e-9] of the real number
    [((1.02/1.0) ^ (365/30) - 1) * 100 * 1.5 - (0.08*1.5 - 0.02)]. *)
Theorem pipeline_end_to_end
  (pow_approx : float -> float -> float)
  (axios_get : string -> completion response) :
  queryUsdcSupplyRate axios_get = Normal 0.02 ->
  approximates 1e-12 pow_approx (1.02 / 1.0) (365 / 30) ->
  exists y,
    pipeline pow_approx axios_get 1.02 1.0 30 0.08 1.5 = Normal y
    /\ within_rel 1e-9 y
         ((Rpower (1.02 / 1.0) (365 / 30) - 1) * 100 * 1.5
          - (0.08 * 1.5 - 0.02)).
Proof.
  intros Hsupply Happrox.
  exists (calcNetDeltaNeutral
            ((pow_approx (1.02 / 1.0) (365 / 30) - 1) * 100) 1.5
            (0.08 * 1.5 - 0.02)).
  split.
  - unfold pipeline, calcNetBorrowRate. rewrite Hsupply. reflexivity.
  - now apply yield_of_1_02.
Qed.

(** The reference engine is that accurate at [(1.02, 365/30)]. *)
Lemma pow_engine_accurate_1_02 :
  approximates 1e-12 pow_engine (1.02 / 1.0) (365 / 30).
Proof.
  pose proof operand_power_of_1_02 as HPf. unfold approximates.
  set (P := Rpower _ _) in *. clearbody P.
  apply bounds_within_rel; [lra | reflexivity |].
  unfold B2R.
  let v := eval vm_compute in (B2Q (pow_engine (1.02 / 1.0) (365 / 30))) in
  replace (B2Q (pow_engine (1.02 / 1.0) (365 / 30))) with v
    by (vm_compute; reflexivity).
  unfold Q2R. cbn [Qnum Qden]. lra.
Qed.

Lemma pipeline_end_to_end_witness :
  queryUsdcSupplyRate
    (stub_net (assets_body "0.08" "0.02") (host_zone_body []))
    = Normal 0.02
  /\ approximates 1e-12 pow_engine (1.02 / 1.0) (365 / 30)
  /\ exists y,
       pipeline pow_engine
         (stub_net (assets_body "0.08" "0.02") (host_zone_body []))
         1.02 1.0 30 0.08 1.5 = Normal y
       /\ within_rel 1e-9 y
            ((Rpower (1.02 / 1.0) (365 / 30) - 1) * 100 * 1.5
             - (0.08 * 1.5 - 0.02)).
Proof.
  split; [reflexivity |].
  split; [exact pow_engine_accurate_1_02 |].
  apply (pipeline_end_to_end pow_engine
           (stub_net (assets_body "0.08" "0.02") (host_zone_body [])));
    [reflexivity | exact pow_engine_accurate_1_02].
Defined.

(** The value the reference engine gives the scenario. *)
Example scenario_value_of_engine :
  pipeline pow_engine
    (stub_net (assets_body "0.08" "0.02") (host_zone_body []))
    1.02 1.0 30 0.08 1.5 = Normal 40.765169426073363.
Proof. vm_compute. reflexivity. Qed.

End PipelineSpec.

(** * Further properties *)

(** ** More facts about binary64 *)

Module FloatFacts2.
Import FloatFacts.

Lemma Prim2SF_one : Prim2SF 1 = S754_finite false 4503599627370496 (-52).
Proof. reflexivity. Qed.

Lemma Prim2SF_nan : Prim2SF nan = S754_nan.
Proof. reflexivity. Qed.

(** Every test and operation in the goal and the context, read on the
    specification. *)
Ltac to_spec :=
  unfold is_finite, is_infinity in *;
  rewrite ?is_nan_spec, ?FloatAxioms.eqb_spec, ?FloatAxioms.ltb_spec,
    ?FloatAxioms.leb_spec, ?abs_spec, ?opp_spec, ?div_spec, ?mul_spec,
    ?sub_spec, ?Prim2SF_zero, ?Prim2SF_one, ?Prim2SF_nan,
    ?Prim2SF_infinity, ?Prim2SF_neg_infinity in *.

Lemma is_nan_eq (x : float) : is_nan x = true -> x = nan.
Proof.
  intros H. apply Prim2SF_inj. rewrite Prim2SF_nan.
  rewrite is_nan_spec in H. now destruct (Prim2SF x).
Qed.

Lemma sub_nan_r (x : float) : x - nan = nan.
Proof.
  apply Prim2SF_inj. rewrite sub_spec, Prim2SF_nan.
  now destruct (Prim2SF x).
Qed.

Lemma sub_nan_l (x : float) : nan - x = nan.
Proof. apply Prim2SF_inj. now rewrite sub_spec, Prim2SF_nan. Qed.

Lemma mul_nan_r (x : float) : x * nan = nan.
Proof.
  apply Prim2SF_inj. rewrite mul_spec, Prim2SF_nan.
  now destruct (Prim2SF x).
Qed.

Lemma mul_nan_l (x : float) : nan * x = nan.
Proof. apply Prim2SF_inj. now rewrite mul_spec, Prim2SF_nan. Qed.

Lemma div_nan_r (x : float) : x / nan = nan.
Proof.
  apply Prim2SF_inj. rewrite div_spec, Prim2SF_nan.
  now destruct (Prim2SF x).
Qed.

Lemma div_nan_l (x : float) : nan / x = nan.
Proof. apply Prim2SF_inj. now rewrite div_spec, Prim2SF_nan. Qed.

Lemma SFcompare_swap (x y : spec_float) :
  SFcompare y x = option_map CompOpp (SFcompare x y).
Proof.
  destruct x as [[|] | [|] | | [|] m e], y as [[|] | [|] | | [|] m' e'];
    simpl; try reflexivity;
    rewrite (Z.compare_antisym e e'); destruct (e ?= e')%Z; simpl;
    try reflexivity;
    rewrite ?Pos.compare_cont_antisym; reflexivity.
Qed.

Lemma ltb_antisym (x y : float) :
  (x <? y) = true -> (y <? x) = false /\ (y =? x) = false.
Proof.
  rewrite !FloatAxioms.ltb_spec, FloatAxioms.eqb_spec.
  unfold SFltb, SFeqb. rewrite (SFcompare_swap (Prim2SF x) (Prim2SF y)).
  destruct (SFcompare (Prim2SF x) (Prim2SF y)) as [[| |] |];
    simpl; intros H; try discriminate H; auto.
Qed.

Lemma positive_not_nan (x : float) : (0 <? x) = true -> is_nan x = false.
Proof. intros H. by_kind x. Qed.

Lemma positive_not_zero (x : float) : (0 <? x) = true -> (x =? 0) = false.
Proof. intros H. by_kind x. Qed.

(** Over a zero of either sign a quotient is an infinity or NaN. *)
Lemma div_zero_not_finite (x y : float) :
  (y =? 0) = true -> is_finite (x / y) = false.
Proof.
  intros H. to_spec.
  destruct (Prim2SF y) as [[|] | [|] | | [|] my ey]; simpl in H;
    try discriminate H;
    destruct (Prim2SF x) as [[|] | [|] | | [|] mx ex]; reflexivity.
Qed.

(** The quotient of a finite non-zero number by itself is exactly 1. *)
Lemma div_same (x : float) :
  is_finite x = true -> (x =? 0) = false -> x / x = 1.
Proof.
  intros Hfin Hnz. apply Prim2SF_inj. rewrite div_spec, Prim2SF_one.
  to_spec.
  destruct (Prim2SF x) as [s | s | | s m e]; simpl in Hfin, Hnz;
    try discriminate; try (destruct s; discriminate).
  unfold SF64div, SFdiv, SFdiv_core_binary.
  replace (Zdigits2 (Z.pos m) + e - (Zdigits2 (Z.pos m) + e))%Z with 0%Z
    by lia.
  rewrite Z.sub_diag.
  change (Z.min (fexp prec emax 0) 0) with (-53)%Z.
  change (0 - -53)%Z with 53%Z. cbv iota beta.
  assert (Hdiv : Z.div_eucl (Z.shiftl (Z.pos m) 53) (Z.pos m)
                 = (2 ^ 53, 0)%Z).
  { rewrite Z.shiftl_mul_pow2 by lia.
    assert (Hqr : forall a b, Z.div_eucl a b = (a / b, a mod b)%Z).
    { intros a b. unfold Z.div, Z.modulo.
      now destruct (Z.div_eucl a b). }
    rewrite Hqr, Z.mul_comm, Z.div_mul, Z.mod_mul by lia. reflexivity. }
  rewrite Hdiv.
  replace (new_location (Z.pos m) 0) with loc_Exact
    by (unfold new_location; now destruct (Z.even (Z.pos m))).
  now destruct s.
Qed.

End FloatFacts2.

(** ** The calculator at the edges of its domain *)

Module CalculatorEdges.
Import Number Js Helpers FloatFacts FloatFacts2 ExponentiateFacts.

Section Exponent.

Variable pow_approx : float -> float -> float.

Lemma exponentiate_plus_infinity (base : float) :
  is_finite base = true -> (base =? 0) = false ->
  exponentiate pow_approx base infinity =
    if 1 <? abs base then infinity
    else if abs base =? 1 then nan else 0.
Proof.
  intros Hb Hb0. unfold exponentiate.
  rewrite (finite_not_nan _ Hb), (finite_not_infinity _ Hb),
    (finite_not_neg_infinity _ Hb), Hb0.
  reflexivity.
Qed.

Lemma exponentiate_minus_infinity (base : float) :
  is_finite base = true -> (base =? 0) = false ->
  exponentiate pow_approx base neg_infinity =
    if 1 <? abs base then 0
    else if abs base =? 1 then nan else infinity.
Proof.
  intros Hb Hb0. unfold exponentiate.
  rewrite (finite_not_nan _ Hb), (finite_not_infinity _ Hb),
    (finite_not_neg_infinity _ Hb), Hb0.
  reflexivity.
Qed.

Lemma exponentiate_zero_base (base exponent : float) :
  (base =? 0) = true -> (0 <? exponent) = true ->
  (exponentiate pow_approx base exponent =? 0) = true.
Proof.
  intros Hb He. unfold exponentiate.
  rewrite (positive_not_nan _ He), (positive_not_zero _ He), He, Hb.
  assert (Hnan : is_nan base = false) by by_kind base.
  assert (Hinf : (base =? infinity) = false) by by_kind base.
  assert (Hninf : (base =? neg_infinity) = false) by by_kind base.
  rewrite Hnan, Hinf, Hninf.
  destruct (get_sign base), (is_odd_integral exponent); reflexivity.
Qed.

Lemma premium_not_zero (x : float) : (1 <? abs x) = true -> (x =? 0) = false.
Proof. intros H. to_spec. by_kind x. Qed.

Lemma zero_minus_one (z : float) : (z =? 0) = true -> (z - 1) * 100 = -100.
Proof.
  intros H.
  assert (Hz : z = 0 \/ z = neg_zero).
  { to_spec.
    destruct (Prim2SF z) as [[|] | [|] | | [|] m e] eqn:Hk; simpl in H;
      try discriminate H; [right | left]; apply Prim2SF_inj;
      now rewrite Hk. }
  destruct Hz as [-> | ->]; reflexivity.
Qed.

Lemma infinite_period_exponent (d : float) :
  is_infinity d = true ->
  is_nan (365 / d) = false /\ (365 / d =? 0) = true.
Proof.
  intros H. to_spec.
  destruct (Prim2SF d) as [[|] | [|] | | [|] m e]; simpl in H;
    try discriminate H; split; reflexivity.
Qed.

End Exponent.

(** X1: over a price of zero, of either sign, the arbitrage ratio is never
    a finite number: it is an infinity or NaN. *)
Theorem zero_price_ratio_not_finite (redeemRate price : float) :
  (price =? 0) = true -> is_finite (calcArb redeemRate price) = false.
Proof. intros H. unfold calcArb. now apply div_zero_not_finite. Qed.

Lemma zero_price_ratio_not_finite_witness :
  (neg_zero =? 0) = true /\ is_finite (calcArb 1.02 neg_zero) = false.
Proof.
  split; [reflexivity |].
  apply (zero_price_ratio_not_finite 1.02 neg_zero). reflexivity.
Defined.

(** X2: when the redemption rate equals the spot price, a finite non-zero
    number, the arbitrage ratio is exactly 1, and its annualisation over
    a period with a finite exponent is exactly 0 (the engine's power of 1
    being 1). *)
Theorem parity_has_no_gain
  (pow_approx : float -> float -> float) (quote DAYS_TO_REDEEM : float) :
  is_finite quote = true -> (quote =? 0) = false ->
  calcArb quote quote = 1
  /\ (is_finite (365 / DAYS_TO_REDEEM) = true ->
      pow_approx 1 (365 / DAYS_TO_REDEEM) = 1 ->
      calcAnnualizedArb pow_approx (calcArb quote quote) DAYS_TO_REDEEM = 0).
Proof.
  intros Hfin Hnz.
  assert (Hone : calcArb quote quote = 1) by now apply div_same.
  split; [exact Hone |].
  intros He Hpow. rewrite Hone. unfold calcAnnualizedArb.
  now rewrite exponentiate_one.
Qed.

Lemma parity_has_no_gain_witness :
  is_finite 1.0273 = true /\ (1.0273 =? 0) = false
  /\ calcArb 1.0273 1.0273 = 1
  /\ calcAnnualizedArb pow_engine (calcArb 1.0273 1.0273) 21 = 0.
Proof.
  do 2 (split; [reflexivity |]).
  destruct (parity_has_no_gain pow_engine 1.0273 21) as [Hone Hgain];
    try reflexivity.
  split; [exact Hone | apply Hgain; reflexivity].
Defined.

(** X3: a NaN among the inputs of a calculator comes out as NaN: in
    either quote of [calcArb], in the period of [calcAnnualizedArb], in
    its ratio unless the exponent is zero, and in any argument of
    [calcNetDeltaNeutral]. *)
Theorem nan_input_gives_nan
  (pow_approx : float -> float -> float) (x y z : float) :
  is_nan x = true ->
  calcArb x y = nan /\ calcArb y x = nan
  /\ calcAnnualizedArb pow_approx y x = nan
  /\ (is_nan (365 / y) = false -> (365 / y =? 0) = false ->
      calcAnnualizedArb pow_approx x y = nan)
  /\ calcNetDeltaNeutral x y z = nan /\ calcNetDeltaNeutral y x z = nan
  /\ calcNetDeltaNeutral y z x = nan.
Proof.
  intros H. apply is_nan_eq in H. subst x.
  unfold calcArb, calcAnnualizedArb, calcNetDeltaNeutral.
  rewrite ?div_nan_l, ?div_nan_r, ?mul_nan_l, ?mul_nan_r, ?sub_nan_l,
    ?sub_nan_r.
  do 3 (split; [reflexivity |]).
  split; [| repeat split].
  intros He He0. unfold exponentiate. now rewrite He, He0.
Qed.

Lemma nan_input_gives_nan_witness :
  is_nan (0 / 0) = true
  /\ calcArb (0 / 0) 1.0 = nan
  /\ calcNetDeltaNeutral 10 1.5 (0 / 0) = nan.
Proof.
  split; [reflexivity |].
  destruct (nan_input_gives_nan pow_engine (0 / 0) 1.0 0.17)
    as [Harb _]; [reflexivity |].
  split; [exact Harb |].
  apply (nan_input_gives_nan pow_engine (0 / 0) 10 1.5). reflexivity.
Defined.

(** X4: over an unbounded period, [+Infinity] or [-Infinity] days, the
    annualised figure is exactly 0 whatever the ratio, NaN included: the
    exponent is a zero and anything to the power zero is 1. *)
Theorem unbounded_period_gives_zero
  (pow_approx : float -> float -> float) (arb DAYS_TO_REDEEM : float) :
  is_infinity DAYS_TO_REDEEM = true ->
  calcAnnualizedArb pow_approx arb DAYS_TO_REDEEM = 0.
Proof.
  intros H. destruct (infinite_period_exponent _ H) as [Hnan Hzero].
  unfold calcAnnualizedArb.
  now rewrite exponentiate_zero_exponent.
Qed.

Lemma unbounded_period_gives_zero_witness :
  is_infinity neg_infinity = true
  /\ calcAnnualizedArb pow_engine nan neg_infinity = 0.
Proof.
  split; [reflexivity |].
  apply (unbounded_period_gives_zero pow_engine nan neg_infinity).
  reflexivity.
Defined.

(** X5: for a period of [+0] days the exponent is [+Infinity]: a finite
    ratio above 1 in magnitude annualises to [+Infinity], a non-zero one
    below 1 to exactly [-100]; for [-0] days the two results swap. *)
Theorem zero_period_is_all_or_nothing
  (pow_approx : float -> float -> float) (arb : float) :
  is_finite arb = true ->
  ((1 <? abs arb) = true ->
   calcAnnualizedArb pow_approx arb 0 = infinity
   /\ calcAnnualizedArb pow_approx arb neg_zero = -100)
  /\ ((abs arb <? 1) = true -> (arb =? 0) = false ->
      calcAnnualizedArb pow_approx arb 0 = -100
      /\ calcAnnualizedArb pow_approx arb neg_zero = infinity).
Proof.
  intros Hfin. unfold calcAnnualizedArb.
  change (365 / 0) with infinity.
  change (365 / neg_zero) with neg_infinity.
  split.
  - intros Hbig.
    rewrite exponentiate_plus_infinity, exponentiate_minus_infinity
      by auto using premium_not_zero.
    rewrite Hbig. split; reflexivity.
  - intros Hsmall Hnz.
    rewrite exponentiate_plus_infinity, exponentiate_minus_infinity
      by assumption.
    destruct (ltb_antisym _ _ Hsmall) as [-> Hne].
    assert (Hne' : (abs arb =? 1) = false).
    { rewrite FloatAxioms.eqb_spec in *. unfold SFeqb in *.
      rewrite SFcompare_swap.
      destruct (SFcompare (Prim2SF 1) (Prim2SF (abs arb))) as [[| |] |];
        simpl in *; congruence. }
    rewrite Hne'. split; reflexivity.
Qed.

Lemma zero_period_is_all_or_nothing_witness :
  is_finite 1.02 = true /\ (1 <? abs 1.02) = true
  /\ calcAnnualizedArb pow_engine 1.02 0 = infinity
  /\ is_finite 0.98 = true /\ (abs 0.98 <? 1) = true
  /\ calcAnnualizedArb pow_engine 0.98 0 = -100.
Proof.
  do 2 (split; [reflexivity |]).
  destruct (zero_period_is_all_or_nothing pow_engine 1.02) as [Hbig _];
    [reflexivity |].
  destruct (Hbig eq_refl) as [Hinf _].
  split; [exact Hinf |].
  do 2 (split; [reflexivity |]).
  destruct (zero_period_is_all_or_nothing pow_engine 0.98) as [_ Hsmall];
    [reflexivity |].
  now destruct (Hsmall eq_refl eq_refl) as [Hloss _].
Defined.

(** X6: a ratio of zero, of either sign, under a positive exponent
    annualises to exactly [-100], whatever the engine. *)
Theorem worthless_redemption_loses_all
  (pow_approx : float -> float -> float) (arb DAYS_TO_REDEEM : float) :
  (arb =? 0) = true -> (0 <? 365 / DAYS_TO_REDEEM) = true ->
  calcAnnualizedArb pow_approx arb DAYS_TO_REDEEM = -100.
Proof.
  intros Hz He. unfold calcAnnualizedArb.
  apply zero_minus_one. now apply exponentiate_zero_base.
Qed.

Lemma worthless_redemption_loses_all_witness :
  (neg_zero =? 0) = true /\ (0 <? 365 / 21) = true
  /\ calcAnnualizedArb pow_engine neg_zero 21 = -100.
Proof.
  do 2 (split; [reflexivity |]).
  apply (worthless_redemption_loses_all pow_engine neg_zero 21);
    reflexivity.
Defined.

End CalculatorEdges.

(** ** The rate fetchers on bodies of any shape *)

Module FetcherEdges.
Import Number Js JsNumeric Helpers Quotes Provider Fixtures.
Import FloatFacts FloatFacts2 FetcherSpec.
#[local] Open Scope string_scope.

Lemma filter_items_null (symbol : string) (items : list value) :
  In Null items ->
  filter_items (asset_is symbol) items = Throw TypeError.
Proof.
  induction items as [| x rest IH]; intros Hin; [destruct Hin |].
  destruct Hin as [-> | Hin]; [reflexivity |].
  simpl. rewrite (IH Hin). now destruct x.
Qed.

Lemma lookup_missing (key : string) (fields : list (string * value)) :
  has_key key fields = false -> lookup key fields = Undefined.
Proof.
  unfold has_key. induction fields as [| [k v] rest IH]; [reflexivity |].
  simpl. destruct (String.eqb k key); [discriminate | exact IH].
Qed.

Section Quote.

Variables symbol field : string.

Lemma parseFloat_return (v : value) :
  (parsed <- parseFloat v ;; Normal parsed)%js = parseFloat v.
Proof. now destruct (parseFloat v). Qed.

Lemma quote_of_records (items : list value) :
  forallb is_record items = true ->
  quote_of symbol field (Arr items)
    = match find (has_asset symbol) items with
      | Some (Obj fields) => parseFloat (lookup field fields)
      | _ => Throw TypeError
      end.
Proof.
  intros Hrec. unfold quote_of. cbn [array_filter].
  rewrite (filter_items_records symbol items Hrec). cbn [bind].
  unfold destructure_first.
  destruct (find (has_asset symbol) items) as [x |] eqn:Hfind.
  - rewrite (hd_filter_find _ Undefined x items Hfind).
    apply find_some in Hfind as [Hin _].
    rewrite forallb_forall in Hrec. specialize (Hrec x Hin).
    destruct x; try discriminate Hrec.
    cbn [get bind]. apply parseFloat_return.
  - assert (Hnone : filter (has_asset symbol) items = []).
    { induction items as [| a l IH]; [reflexivity |].
      simpl in Hfind |- *. destruct (has_asset symbol a);
        [discriminate | apply IH; [| assumption]].
      simpl in Hrec. now apply andb_true_iff in Hrec as [_ Hl]. }
    now rewrite Hnone.
Qed.

Lemma quote_of_same_filter (items items' : list value) :
  forallb is_record items = true -> forallb is_record items' = true ->
  filter (has_asset symbol) items = filter (has_asset symbol) items' ->
  quote_of symbol field (Arr items) = quote_of symbol field (Arr items').
Proof.
  intros Hrec Hrec' Hsame. unfold quote_of. cbn [array_filter].
  now rewrite (filter_items_records symbol items Hrec),
    (filter_items_records symbol items' Hrec'), Hsame.
Qed.

Lemma quote_of_malformed (body : value) :
  (match body with Arr items => In Null items | _ => True end) ->
  quote_of symbol field body = Throw TypeError.
Proof.
  unfold quote_of. destruct body; try reflexivity.
  intros Hin. cbn [array_filter].
  now rewrite (filter_items_null symbol items Hin).
Qed.

End Quote.

Lemma queryAtomUmeeHedge_quote (net : string -> completion response)
  (body : value) :
  net UMEE_ASSETS_URL = Normal {| data := body |} ->
  queryAtomUmeeHedge net = quote_of "ATOM" "borrow_apy" body.
Proof. intros H. unfold queryAtomUmeeHedge. now rewrite H. Qed.

Lemma queryUsdcSupplyRate_quote (net : string -> completion response)
  (body : value) :
  net UMEE_ASSETS_URL = Normal {| data := body |} ->
  queryUsdcSupplyRate net = quote_of "USDC" "supply_apy" body.
Proof. intros H. unfold queryUsdcSupplyRate. now rewrite H. Qed.

(** X7: a request that fails makes the read that issued it, and what is
    built on it, fail with the error of the request: no retry, no
    default, no other error. *)
Theorem request_failure_is_passed_on
  (net : string -> completion response) (e : exn) :
  (net UMEE_ASSETS_URL = Throw e ->
   queryAtomUmeeHedge net = Throw e
   /\ queryUsdcSupplyRate net = Throw e
   /\ (forall borrowRate collateralRatio,
         calcNetBorrowRate net borrowRate collateralRatio = Throw e)
   /\ (forall pow_approx redeemRate price days borrowRate collateralRatio,
         pipeline pow_approx net redeemRate price days borrowRate
           collateralRatio = Throw e))
  /\ (net STRIDE_HOST_ZONE_URL = Throw e ->
      queryStAtomRedemptionRate net = Throw e)
  /\ (net OSMOSIS_POOL_URL = Throw e -> queryStAtomAtomPrice net = Throw e).
Proof.
  repeat split; intros;
    unfold pipeline, calcNetBorrowRate, queryAtomUmeeHedge,
      queryUsdcSupplyRate, queryStAtomRedemptionRate, queryStAtomAtomPrice;
    match goal with H : net _ = Throw e |- _ => now rewrite H end.
Qed.

Lemma request_failure_is_passed_on_witness :
  queryUsdcSupplyRate (fun _ => Throw (AxiosError "ECONNABORTED"))
    = Throw (AxiosError "ECONNABORTED")
  /\ calcNetBorrowRate (fun _ => Throw (AxiosError "ECONNABORTED")) 0.08 1.5
     = Throw (AxiosError "ECONNABORTED")
  /\ queryStAtomAtomPrice (fun _ => Throw (AxiosError "ECONNABORTED"))
     = Throw (AxiosError "ECONNABORTED").
Proof.
  destruct (request_failure_is_passed_on
              (fun _ => Throw (AxiosError "ECONNABORTED"))
              (AxiosError "ECONNABORTED")) as [Hassets [_ Hpool]].
  destruct (Hassets eq_refl) as [_ [Hsupply [Hnet _]]].
  split; [exact Hsupply |].
  split; [apply Hnet | apply Hpool; reflexivity].
Defined.

(** X8: on an array of records the asset fetchers quote the first record
    of their symbol, later ones being ignored: they resolve to what
    [parseFloat] makes of its rate field, which is NaN when the record
    has no such field. *)
Theorem first_match_is_quoted
  (net : string -> completion response) (items : list value)
  (fields : list (string * value)) :
  net UMEE_ASSETS_URL = Normal {| data := Arr items |} ->
  forallb is_record items = true ->
  (find (has_asset "ATOM") items = Some (Obj fields) ->
   queryAtomUmeeHedge net = parseFloat (lookup "borrow_apy" fields)
   /\ (has_key "borrow_apy" fields = false ->
       queryAtomUmeeHedge net = Normal nan))
  /\ (find (has_asset "USDC") items = Some (Obj fields) ->
      queryUsdcSupplyRate net = parseFloat (lookup "supply_apy" fields)
      /\ (has_key "supply_apy" fields = false ->
          queryUsdcSupplyRate net = Normal nan)).
Proof.
  intros Hres Hrec.
  split; intros Hfind.
  - rewrite (queryAtomUmeeHedge_quote net _ Hres),
      (quote_of_records _ _ items Hrec), Hfind.
    split; [reflexivity |].
    intros Hno. now rewrite (lookup_missing _ _ Hno).
  - rewrite (queryUsdcSupplyRate_quote net _ Hres),
      (quote_of_records _ _ items Hrec), Hfind.
    split; [reflexivity |].
    intros Hno. now rewrite (lookup_missing _ _ Hno).
Qed.

Lemma first_match_is_quoted_witness :
  queryAtomUmeeHedge
    (stub_net
       (Arr [Obj [("asset", Str "USDC"); ("supply_apy", Str "0.02")];
             Obj [("asset", Str "ATOM"); ("borrow_apy", Str "0.08")];
             Obj [("asset", Str "ATOM"); ("borrow_apy", Str "0.5")]])
       (host_zone_body []))
  = Normal 0.08
  /\ queryUsdcSupplyRate
       (stub_net
          (Arr [Obj [("asset", Str "USDC")];
                Obj [("asset", Str "USDC"); ("supply_apy", Str "0.02")]])
          (host_zone_body []))
     = Normal nan.
Proof.
  split.
  - destruct (first_match_is_quoted
                (stub_net
                   (Arr [Obj [("asset", Str "USDC");
                              ("supply_apy", Str "0.02")];
                         Obj [("asset", Str "ATOM");
                              ("borrow_apy", Str "0.08")];
                         Obj [("asset", Str "ATOM");
                              ("borrow_apy", Str "0.5")]])
                   (host_zone_body []))
                _ [("asset", Str "ATOM"); ("borrow_apy", Str "0.08")]
                eq_refl eq_refl) as [Hatom _].
    now destruct (Hatom eq_refl) as [-> _].
  - destruct (first_match_is_quoted
                (stub_net
                   (Arr [Obj [("asset", Str "USDC")];
                         Obj [("asset", Str "USDC");
                              ("supply_apy", Str "0.02")]])
                   (host_zone_body []))
                _ [("asset", Str "USDC")] eq_refl eq_refl) as [_ Husdc].
    destruct (Husdc eq_refl) as [_ Hnan]. now apply Hnan.
Defined.

(** X9: a body that is not an array, or an array with a [null] item
    anywhere, makes both asset fetchers reject with a TypeError, also
    when the record they look for is present. *)
Theorem malformed_body_rejects
  (net : string -> completion response) (body : value) :
  net UMEE_ASSETS_URL = Normal {| data := body |} ->
  (match body with Arr items => In Null items | _ => True end) ->
  queryAtomUmeeHedge net = Throw TypeError
  /\ queryUsdcSupplyRate net = Throw TypeError.
Proof.
  intros Hres Hbad.
  rewrite (queryAtomUmeeHedge_quote net _ Hres),
    (queryUsdcSupplyRate_quote net _ Hres).
  split; now apply quote_of_malformed.
Qed.

Lemma malformed_body_rejects_witness :
  In Null [Obj [("asset", Str "ATOM"); ("borrow_apy", Str "0.08")]; Null]
  /\ queryAtomUmeeHedge
       (stub_net
          (Arr [Obj [("asset", Str "ATOM"); ("borrow_apy", Str "0.08")];
                Null])
          (host_zone_body []))
     = Throw TypeError.
Proof.
  split; [right; left; reflexivity |].
  apply (malformed_body_rejects
           (stub_net
              (Arr [Obj [("asset", Str "ATOM"); ("borrow_apy", Str "0.08")];
                    Null])
              (host_zone_body []))
           (Arr [Obj [("asset", Str "ATOM"); ("borrow_apy", Str "0.08")];
                 Null]) eq_refl).
  right; left; reflexivity.
Defined.

(** X10: an asset fetcher sees only the records of its symbol: two
    arrays of records with the same ATOM records in the same order give
    the same borrow rate, and likewise for USDC and the supply rate. *)
Theorem other_assets_do_not_matter
  (net net' : string -> completion response) (items items' : list value) :
  net UMEE_ASSETS_URL = Normal {| data := Arr items |} ->
  net' UMEE_ASSETS_URL = Normal {| data := Arr items' |} ->
  forallb is_record items = true -> forallb is_record items' = true ->
  (filter (has_asset "ATOM") items = filter (has_asset "ATOM") items' ->
   queryAtomUmeeHedge net = queryAtomUmeeHedge net')
  /\ (filter (has_asset "USDC") items = filter (has_asset "USDC") items' ->
      queryUsdcSupplyRate net = queryUsdcSupplyRate net').
Proof.
  intros Hres Hres' Hrec Hrec'. split; intros Hsame.
  - rewrite (queryAtomUmeeHedge_quote net _ Hres),
      (queryAtomUmeeHedge_quote net' _ Hres').
    now apply quote_of_same_filter.
  - rewrite (queryUsdcSupplyRate_quote net _ Hres),
      (queryUsdcSupplyRate_quote net' _ Hres').
    now apply quote_of_same_filter.
Qed.

Lemma other_assets_do_not_matter_witness :
  queryAtomUmeeHedge
    (stub_net (assets_body "0.08" "0.02") (host_zone_body []))
  = queryAtomUmeeHedge
      (stub_net (assets_body_longer "0.08" "0.03") (host_zone_body [])).
Proof.
  destruct (other_assets_do_not_matter
              (stub_net (assets_body "0.08" "0.02") (host_zone_body []))
              (stub_net (assets_body_longer "0.08" "0.03")
                 (host_zone_body []))
              _ _ eq_refl eq_refl eq_refl eq_refl) as [Hatom _].
  apply Hatom. reflexivity.
Defined.

(** X11: the redemption-rate fetcher rejects with a TypeError on any body
    that is not an object with a [host_zone]; on an object whose
    [host_zone] is an array that starts with a record it resolves to what
    [parseFloat] makes of that record's [redemption_rate], whatever
    zones follow. *)
Theorem host_zone_shapes
  (net : string -> completion response) (body : value) :
  net STRIDE_HOST_ZONE_URL = Normal {| data := body |} ->
  (is_record body = false -> queryStAtomRedemptionRate net = Throw TypeError)
  /\ (forall fields,
        body = Obj fields -> has_key "host_zone" fields = false ->
        queryStAtomRedemptionRate net = Throw TypeError)
  /\ (forall fields zone others,
        body = Obj fields ->
        lookup "host_zone" fields = Arr (Obj zone :: others) ->
        queryStAtomRedemptionRate net
          = parseFloat (lookup "redemption_rate" zone)).
Proof.
  intros Hres. unfold queryStAtomRedemptionRate. rewrite Hres.
  cbn [bind data]. repeat split.
  - intros Hshape. now destruct body.
  - intros fields -> Hno.
    cbn [get bind]. now rewrite (lookup_missing _ _ Hno).
  - intros fields zone others -> Hzone.
    cbn [get bind]. rewrite Hzone. cbn [get_first hd bind get].
    apply parseFloat_return.
Qed.

Lemma host_zone_shapes_witness :
  queryStAtomRedemptionRate (stub_net (Arr []) (Arr [])) = Throw TypeError
  /\ queryStAtomRedemptionRate (stub_net (Arr []) (Obj [])) = Throw TypeError
  /\ queryStAtomRedemptionRate
       (stub_net (Arr [])
          (host_zone_body
             [Obj [("redemption_rate", Str "1.02")]; Null; Str "x"]))
     = Normal 1.02.
Proof.
  split; [| split].
  - now apply (host_zone_shapes (stub_net (Arr []) (Arr [])) (Arr [])).
  - destruct (host_zone_shapes (stub_net (Arr []) (Obj [])) (Obj [])
                eq_refl) as [_ [Hno _]].
    now apply (Hno []).
  - destruct (host_zone_shapes
                (stub_net (Arr [])
                   (host_zone_body
                      [Obj [("redemption_rate", Str "1.02")]; Null;
                       Str "x"]))
                _ eq_refl) as [_ [_ Hfirst]].
    now rewrite (Hfirst _ [("redemption_rate", Str "1.02")] [Null; Str "x"]
                   eq_refl eq_refl).
Defined.

(** X12: a supply rate that is not a number is not caught on the way:
    the net borrow rate resolves to NaN, and so does the yield the four
    steps compute from it, whatever the other quotes. *)
Theorem malformed_supply_gives_nan_yield
  (net : string -> completion response) (items : list value)
  (fields : list (string * value)) (s : string) :
  net UMEE_ASSETS_URL = Normal {| data := Arr items |} ->
  forallb is_record items = true ->
  find (has_asset "USDC") items = Some (Obj fields) ->
  lookup "supply_apy" fields = Str s ->
  not_numeric s ->
  (forall borrowRate collateralRatio,
      calcNetBorrowRate net borrowRate collateralRatio = Normal nan)
  /\ (forall pow_approx redeemRate price days borrowRate collateralRatio,
        pipeline pow_approx net redeemRate price days borrowRate
          collateralRatio = Normal nan).
Proof.
  intros Hres Hrec Hfind Hrate Hbad.
  assert (Hsupply : queryUsdcSupplyRate net = Normal nan).
  { rewrite (queryUsdcSupplyRate_quote net _ Hres),
      (quote_of_records _ _ items Hrec), Hfind, Hrate.
    now apply parseFloat_not_numeric. }
  split; intros; unfold pipeline, calcNetBorrowRate;
    rewrite Hsupply; cbn [bind]; unfold calcNetDeltaNeutral;
    now rewrite !sub_nan_r.
Qed.

Lemma malformed_supply_gives_nan_yield_witness :
  not_numeric "n/a"
  /\ pipeline pow_engine
       (stub_net (assets_body "0.08" "n/a") (host_zone_body []))
       1.02 1.0 30 0.08 1.5 = Normal nan.
Proof.
  split; [reflexivity |].
  destruct (malformed_supply_gives_nan_yield
              (stub_net (assets_body "0.08" "n/a") (host_zone_body []))
              _ [("asset", Str "USDC"); ("borrow_apy", Str "0.05");
                 ("supply_apy", Str "n/a")] "n/a"
              eq_refl eq_refl eq_refl eq_refl eq_refl) as [_ Hyield].
  apply Hyield.
Defined.

End FetcherEdges.

(** ** The pool price *)

Module PoolPriceSpec.
Import Number Js JsNumeric Helpers Quotes Provider Fixtures.
Import FloatFacts FloatFacts2 FetcherEdges.
#[local] Open Scope string_scope.

(** The two readers of a decimal literal read the same literal. *)
Lemma read_exponent_rest_value (s : string) :
  fst (read_exponent_rest s) = read_exponent s.
Proof.
  destruct s as [| c rest]; [reflexivity |].
  unfold read_exponent_rest, read_exponent.
  destruct (Ascii.eqb c "e" || Ascii.eqb c "E")%bool; [| reflexivity].
  destruct (read_sign rest) as [neg after_sign].
  destruct (read_digits after_sign 0 0) as [[v n] after].
  now destruct (n =? 0)%Z.
Qed.

Lemma decimal_prefix_rest_literal (s : string) :
  option_map fst (decimal_prefix_rest s) = longest_decimal_prefix s.
Proof.
  unfold decimal_prefix_rest, longest_decimal_prefix.
  destruct (read_sign s) as [neg r].
  destruct (prefix "Infinity" r); [reflexivity |].
  destruct (read_digits r 0 0) as [[int_part n_int] r1].
  assert (Hplain :
    option_map fst
      (if (n_int =? 0)%Z then None
       else let '(e, r4) := read_exponent_rest r1 in
            Some (LitDecimal neg int_part e, r4))
    = (if (n_int =? 0)%Z then None
       else Some (LitDecimal neg int_part (read_exponent r1)))).
  { destruct (n_int =? 0)%Z; [reflexivity |].
    rewrite <- read_exponent_rest_value.
    now destruct (read_exponent_rest r1). }
  destruct r1 as [| c r2]; [exact Hplain |].
  destruct (Ascii.eqb_spec c ".") as [-> | Hdot].
  - destruct (read_digits r2 int_part 0) as [[m n_frac] r3].
    destruct ((n_int =? 0) && (n_frac =? 0))%Z; [reflexivity |].
    rewrite <- read_exponent_rest_value.
    now destruct (read_exponent_rest r3).
  - destruct c as [[|] [|] [|] [|] [|] [|] [|] [|]];
      try exact Hplain; now contradiction Hdot.
Qed.

(** The conversion of whole strings, on literals of each kind. *)
Example string_to_number_samples :
  map string_to_number
    ["80"; " 1e2 "; ""; "0x50"; "0b101"; "-Infinity"; "12px"; "1,5"; "0x";
     "1e"; "-0x10"]
  = [80; 100; 0; 80; 5; neg_infinity; nan; nan; nan; nan; nan].
Proof. reflexivity. Qed.

(** X18: the division of the price read converts a string as a whole,
    the rate fetchers parse a prefix; on a string that the division
    takes for a decimal number (not blank, no radix prefix, not NaN) the
    two agree. *)
Theorem conversions_agree_on_decimals (s : string) :
  is_blank s = false ->
  non_decimal_prefix (trim_start s) = None ->
  is_nan (string_to_number s) = false ->
  parseFloat_string s = string_to_number s
  /\ divide (Str s) (Num 1) = Normal (parseFloat_string s / 1).
Proof.
  intros Hblank Hradix Hnum.
  assert (Hsame : parseFloat_string s = string_to_number s).
  { unfold string_to_number, parseFloat_string in *. unfold is_blank in Hblank.
    rewrite <- decimal_prefix_rest_literal.
    destruct (trim_start s) as [| c t] eqn:Htrim; [discriminate Hblank |].
    rewrite Hradix in *.
    destruct (decimal_prefix_rest (String c t)) as [[lit rest] |];
      [| discriminate Hnum].
    cbn [option_map fst].
    destruct (is_blank rest); [| discriminate Hnum].
    now destruct lit. }
  split; [exact Hsame |].
  unfold divide, to_number. cbn. now rewrite Hsame.
Qed.

Lemma conversions_agree_on_decimals_witness :
  is_blank " 1.02e0 " = false
  /\ non_decimal_prefix (trim_start " 1.02e0 ") = None
  /\ is_nan (string_to_number " 1.02e0 ") = false
  /\ parseFloat_string " 1.02e0 " = string_to_number " 1.02e0 ".
Proof.
  do 3 (split; [reflexivity |]).
  now destruct (conversions_agree_on_decimals " 1.02e0 ") as [Hsame _].
Defined.

(** Where they differ: a radix prefix, a trailing unit, a blank. *)
Example conversions_differ :
  map parseFloat_string ["0x50"; "12px"; " "] = [0; 12; nan]
  /\ map string_to_number ["0x50"; "12px"; " "] = [80; nan; 0].
Proof. split; reflexivity. Qed.

Lemma price_of_two_records (net : string -> completion response)
  (f0 f1 : list (string * value)) (rest : list value) :
  net OSMOSIS_POOL_URL = Normal {| data := Arr (Obj f0 :: Obj f1 :: rest) |} ->
  queryStAtomAtomPrice net
    = divide (lookup "amount" f0) (lookup "amount" f1).
Proof.
  intros Hres. unfold queryStAtomAtomPrice. rewrite Hres.
  cbn [bind data get_first get_second hd nth get].
  now destruct (divide (lookup "amount" f0) (lookup "amount" f1)).
Qed.

(** X13: when the pool body is an array that starts with two records,
    the price is the amount of the first over the amount of the second,
    each converted to a number, whatever follows them: the binary64
    quotient for two numbers, and for two strings the quotient of what
    they convert to as a whole. *)
Theorem pool_price_is_first_over_second
  (net : string -> completion response)
  (f0 f1 : list (string * value)) (rest : list value) :
  net OSMOSIS_POOL_URL = Normal {| data := Arr (Obj f0 :: Obj f1 :: rest) |} ->
  (forall a0 a1,
      lookup "amount" f0 = Num a0 -> lookup "amount" f1 = Num a1 ->
      queryStAtomAtomPrice net = Normal (a0 / a1))
  /\ (forall s0 s1,
        lookup "amount" f0 = Str s0 -> lookup "amount" f1 = Str s1 ->
        queryStAtomAtomPrice net
          = Normal (string_to_number s0 / string_to_number s1)).
Proof.
  intros Hres. rewrite (price_of_two_records net f0 f1 rest Hres).
  split; intros x y -> ->; reflexivity.
Qed.

Lemma pool_price_is_first_over_second_witness :
  queryStAtomAtomPrice
    (stub_net3
       (Arr [Obj [("symbol", Str "stATOM"); ("amount", Num 100)];
             Obj [("symbol", Str "ATOM"); ("amount", Num 80)];
             Null])
       (Arr []) (Arr []))
  = Normal 1.25
  /\ queryStAtomAtomPrice
       (stub_net3
          (Arr [Obj [("amount", Str " 1e2 ")]; Obj [("amount", Str "0x50")]])
          (Arr []) (Arr []))
     = Normal 1.25.
Proof.
  split.
  - destruct (pool_price_is_first_over_second
                (stub_net3
                   (Arr [Obj [("symbol", Str "stATOM"); ("amount", Num 100)];
                         Obj [("symbol", Str "ATOM"); ("amount", Num 80)];
                         Null])
                   (Arr []) (Arr []))
                _ _ _ eq_refl) as [Hnum _].
    now rewrite (Hnum 100 80 eq_refl eq_refl).
  - destruct (pool_price_is_first_over_second
                (stub_net3
                   (Arr [Obj [("amount", Str " 1e2 ")];
                         Obj [("amount", Str "0x50")]])
                   (Arr []) (Arr []))
                _ _ _ eq_refl) as [_ Hstr].
    now rewrite (Hstr " 1e2 " "0x50" eq_refl eq_refl).
Defined.

(** X14: an array with fewer than two entries makes the price read
    reject with a TypeError. *)
Theorem short_pool_rejects
  (net : string -> completion response) (items : list value) :
  net OSMOSIS_POOL_URL = Normal {| data := Arr items |} ->
  (length items < 2)%nat ->
  queryStAtomAtomPrice net = Throw TypeError.
Proof.
  intros Hres Hshort. unfold queryStAtomAtomPrice. rewrite Hres.
  cbn [bind data get_first get_second].
  destruct items as [| x [| y rest]]; [reflexivity | | simpl in Hshort; lia].
  now destruct x.
Qed.

Lemma short_pool_rejects_witness :
  (length [Obj [("amount", Num 100)]] < 2)%nat
  /\ queryStAtomAtomPrice
       (stub_net3 (Arr [Obj [("amount", Num 100)]]) (Arr []) (Arr []))
     = Throw TypeError.
Proof.
  split; [simpl; lia |].
  apply (short_pool_rejects
           (stub_net3 (Arr [Obj [("amount", Num 100)]]) (Arr []) (Arr []))
           [Obj [("amount", Num 100)]] eq_refl).
  simpl; lia.
Defined.

(** X15: faults in the two amounts are not caught: with a second amount
    of zero the price resolves to an infinity or NaN, never a finite
    number, and with an amount missing on one side and a number on the
    other it resolves to NaN. *)
Theorem pool_price_faults_pass
  (net : string -> completion response)
  (f0 f1 : list (string * value)) (rest : list value) :
  net OSMOSIS_POOL_URL = Normal {| data := Arr (Obj f0 :: Obj f1 :: rest) |} ->
  (forall a0 a1,
      lookup "amount" f0 = Num a0 -> lookup "amount" f1 = Num a1 ->
      (a1 =? 0)%float = true ->
      exists p, queryStAtomAtomPrice net = Normal p /\ is_finite p = false)
  /\ (forall a1,
        has_key "amount" f0 = false -> lookup "amount" f1 = Num a1 ->
        queryStAtomAtomPrice net = Normal nan)
  /\ (forall a0,
        lookup "amount" f0 = Num a0 -> has_key "amount" f1 = false ->
        queryStAtomAtomPrice net = Normal nan).
Proof.
  intros Hres. rewrite (price_of_two_records net f0 f1 rest Hres).
  repeat split.
  - intros a0 a1 -> -> Hzero. exists (a0 / a1).
    split; [reflexivity | now apply div_zero_not_finite].
  - intros a1 Hno ->. rewrite (lookup_missing _ _ Hno).
    unfold divide. cbn. now rewrite div_nan_l.
  - intros a0 -> Hno. rewrite (lookup_missing _ _ Hno).
    unfold divide. cbn. now rewrite div_nan_r.
Qed.

Lemma pool_price_faults_pass_witness :
  (0 =? 0)%float = true
  /\ (exists p,
        queryStAtomAtomPrice
          (stub_net3
             (Arr [Obj [("amount", Num 100)]; Obj [("amount", Num 0)]])
             (Arr []) (Arr []))
        = Normal p /\ is_finite p = false)
  /\ queryStAtomAtomPrice
       (stub_net3 (Arr [Obj []; Obj [("amount", Num 80)]]) (Arr []) (Arr []))
     = Normal nan.
Proof.
  split; [reflexivity |]. split.
  - destruct (pool_price_faults_pass
                (stub_net3
                   (Arr [Obj [("amount", Num 100)]; Obj [("amount", Num 0)]])
                   (Arr []) (Arr []))
                _ _ _ eq_refl) as [Hzero _].
    apply (Hzero 100 0); reflexivity.
  - destruct (pool_price_faults_pass
                (stub_net3 (Arr [Obj []; Obj [("amount", Num 80)]])
                   (Arr []) (Arr []))
                _ _ _ eq_refl) as [_ [Hmissing _]].
    apply (Hmissing 80); reflexivity.
Defined.

End PoolPriceSpec.

(** ** The joint read of the three quotes *)

Module QueryDataSpec.
Import Number Js JsNumeric Helpers Quotes Provider Fixtures.
#[local] Open Scope string_scope.

Section Joint.

Variable net : string -> completion response.
Variable settle_time : string -> nat.

(** X16: [queryData] is all or nothing, whenever the requests settle: it
    resolves exactly when the three reads resolve, and then to their
    three values, each in its own field. *)
Theorem queryData_all_or_nothing (q : quotes) :
  queryData net settle_time = Normal q
  <-> queryStAtomAtomPrice net = Normal (price q)
      /\ queryStAtomRedemptionRate net = Normal (redeemRate q)
      /\ queryAtomUmeeHedge net = Normal (borrowRate q).
Proof.
  unfold queryData, promise_all3, join_settled. cbn [fst snd].
  destruct (queryStAtomAtomPrice net) as [p | e1],
    (queryStAtomRedemptionRate net) as [r | e2],
    (queryAtomUmeeHedge net) as [b | e3];
    repeat match goal with
      | |- context [if ?c then _ else _] => destruct c
      end;
    cbn [bind]; split;
    try (intros H; discriminate H);
    try (intros [H1 [H2 H3]]; discriminate).
  - intros [= <-]. auto.
  - destruct q as [p' r' b']. cbn. now intros [[= ->] [[= ->] [= ->]]].
Qed.

(** X17: when [queryData] rejects, it is with the error of one of its
    three reads, never another; and a read that rejects strictly before
    the other two settle decides the error, whatever they do. *)
Theorem queryData_rejection_is_a_read_error (e : exn) :
  (queryData net settle_time = Throw e ->
   queryStAtomAtomPrice net = Throw e
   \/ queryStAtomRedemptionRate net = Throw e
   \/ queryAtomUmeeHedge net = Throw e)
  /\ (queryStAtomAtomPrice net = Throw e ->
      (settle_time OSMOSIS_POOL_URL < settle_time STRIDE_HOST_ZONE_URL)%nat ->
      (settle_time OSMOSIS_POOL_URL < settle_time UMEE_ASSETS_URL)%nat ->
      queryData net settle_time = Throw e)
  /\ (queryStAtomRedemptionRate net = Throw e ->
      (settle_time STRIDE_HOST_ZONE_URL < settle_time OSMOSIS_POOL_URL)%nat ->
      (settle_time STRIDE_HOST_ZONE_URL < settle_time UMEE_ASSETS_URL)%nat ->
      queryData net settle_time = Throw e)
  /\ (queryAtomUmeeHedge net = Throw e ->
      (settle_time UMEE_ASSETS_URL < settle_time OSMOSIS_POOL_URL)%nat ->
      (settle_time UMEE_ASSETS_URL < settle_time STRIDE_HOST_ZONE_URL)%nat ->
      queryData net settle_time = Throw e).
Proof.
  unfold queryData, promise_all3, join_settled. cbn [fst snd].
  destruct (queryStAtomAtomPrice net) as [p | e1],
    (queryStAtomRedemptionRate net) as [r | e2],
    (queryAtomUmeeHedge net) as [b | e3];
    repeat match goal with
      | |- context [(?x <? ?y)%nat] => destruct (Nat.ltb_spec x y)
      end;
    cbn [bind];
    repeat split; intros;
    try discriminate; try lia;
    repeat match goal with
      | H : Throw _ = Throw _ |- _ => injection H as ->
      end;
    auto.
Qed.

End Joint.

Lemma queryData_all_or_nothing_witness :
  queryData
    (stub_net3
       (Arr [Obj [("amount", Num 100)]; Obj [("amount", Num 80)]])
       (assets_body "0.08" "0.02")
       (host_zone_body [Obj [("redemption_rate", Str "1.02")]]))
    (fun _ => 7%nat)
  = Normal {| price := 1.25; redeemRate := 1.02; borrowRate := 0.08 |}.
Proof.
  apply (queryData_all_or_nothing
           (stub_net3
              (Arr [Obj [("amount", Num 100)]; Obj [("amount", Num 80)]])
              (assets_body "0.08" "0.02")
              (host_zone_body [Obj [("redemption_rate", Str "1.02")]]))
           (fun _ => 7%nat)
           {| price := 1.25; redeemRate := 1.02; borrowRate := 0.08 |}).
  repeat split.
Defined.

Lemma queryData_rejection_is_a_read_error_witness :
  queryStAtomAtomPrice failing_net = Throw TypeError
  /\ queryAtomUmeeHedge failing_net = Throw (AxiosError "ERR_BAD_RESPONSE")
  /\ queryData failing_net failing_times
     = Throw (AxiosError "ERR_BAD_RESPONSE").
Proof.
  do 2 (split; [reflexivity |]).
  destruct (queryData_rejection_is_a_read_error failing_net failing_times
              (AxiosError "ERR_BAD_RESPONSE")) as [_ [_ [_ Hfirst]]].
  apply Hfirst; [reflexivity | | ]; vm_compute; lia.
Defined.

End QueryDataSpec.
